(** * codex-shimmer: the Waybar CFFI module of codex-waybar

    A shallow embedding of [src/cffi/codex_shimmer/main.c].

    Conventions of the embedding:
    - a C [double] is a real number of the Standard Library ([R]); the
      development reasons about the formulas of the renderer, not about
      IEEE rounding;
    - [guint], [gint64] and [guint64] values are integers ([Z]), with the
      wrap-around of the unsigned subtraction of [on_draw] written out;
    - a [gchar *] that may be [NULL] is an [option string], a string being
      the sequence of its bytes;
    - the libraries the module calls into (json-glib's parser, GLib's path
      helpers, GDK's colour parser, Pango's text measurement) are the fields
      of the class [Platform]; the file system and the monotonic clock are
      arguments of the operations that consult them;
    - the part of the widget tree the module writes to (the style classes of
      the container, the tooltip and the size request of the drawing area)
      is carried in the instance record, and [on_draw] returns the list of
      paint operations it issues. *)

From Stdlib Require Import Reals Lra Lia ZArith String Ascii List Bool Sorted.
Import ListNotations.

Local Open Scope R_scope.

(** ** JSON documents, as json-glib presents them *)

#[local] Set Warnings "-register-all".

Inductive JsonNode : Type :=
| JNull
| JBool (b : bool)
| JInt (i : Z)
| JDouble (d : R)
| JString (s : string)
| JArray (elements : list JsonNode)
| JObject (members : list (string * JsonNode)).

Inductive JsonNodeType : Type :=
| JSON_NODE_OBJECT
| JSON_NODE_ARRAY
| JSON_NODE_VALUE
| JSON_NODE_NULL.

Inductive GType : Type :=
| G_TYPE_INT64
| G_TYPE_DOUBLE
| G_TYPE_BOOLEAN
| G_TYPE_STRING
| G_TYPE_INVALID.

Definition json_node_get_node_type (node : JsonNode) : JsonNodeType :=
  match node with
  | JObject _ => JSON_NODE_OBJECT
  | JArray _ => JSON_NODE_ARRAY
  | JNull => JSON_NODE_NULL
  | JBool _ | JInt _ | JDouble _ | JString _ => JSON_NODE_VALUE
  end.

Definition json_node_get_value_type (node : JsonNode) : GType :=
  match node with
  | JInt _ => G_TYPE_INT64
  | JDouble _ => G_TYPE_DOUBLE
  | JBool _ => G_TYPE_BOOLEAN
  | JString _ => G_TYPE_STRING
  | JNull | JArray _ | JObject _ => G_TYPE_INVALID
  end.

(** Truncation toward zero, the rounding of a C conversion from [double]
    to an integer type and of [fmod]. *)
Definition Rtrunc (d : R) : Z :=
  if Rle_dec 0 d then Zfloor d else Zceil d.

Definition json_node_get_double (node : JsonNode) : R :=
  match node with
  | JDouble d => d
  | JInt i => IZR i
  | JBool b => if b then 1 else 0
  | _ => 0
  end.

Definition json_node_get_string (node : JsonNode) : option string :=
  match node with
  | JString s => Some s
  | _ => None
  end.

(** Members of an object, by name; json-glib keeps one node per name. *)
Fixpoint json_object_get_member (obj : list (string * JsonNode)) (name : string)
  : option JsonNode :=
  match obj with
  | [] => None
  | (k, v) :: rest =>
      if String.eqb k name then Some v else json_object_get_member rest name
  end.

Definition json_object_has_member (obj : list (string * JsonNode)) (name : string)
  : bool :=
  match json_object_get_member obj name with
  | Some _ => true
  | None => false
  end.

Definition json_object_get_string_member (obj : list (string * JsonNode))
  (name : string) : option string :=
  match json_object_get_member obj name with
  | Some node => json_node_get_string node
  | None => None
  end.

(** ** Colours *)

Record GdkRGBA : Type := mkRGBA {
  red : R;
  green : R;
  blue : R;
  alpha : R
}.

Definition rgba_zero : GdkRGBA := mkRGBA 0 0 0 0.

Definition set_alpha (a : R) (c : GdkRGBA) : GdkRGBA :=
  mkRGBA (red c) (green c) (blue c) a.

(** ** The libraries behind the module *)

Class Platform : Type := {
  (** [json_parser_load_from_data]: [None] on a syntax error, [Some root]
      otherwise, the root being absent for a document without content. *)
  json_parser_load_from_data : string -> option (option JsonNode);
  g_get_home_dir : string;
  (** [g_build_filename] applied to its elements. *)
  g_build_filename : list string -> string;
  (** [gdk_rgba_parse]: [None] when the specification is not a colour. *)
  gdk_rgba_parse : string -> option GdkRGBA;
  (** [pango_layout_get_pixel_size] of a layout of the text, with the bold
      attribute when the flag is set: width and height in pixels. *)
  pango_layout_get_pixel_size : bool -> string -> Z * Z;
  (** The style classes GTK itself gives a new horizontal box. *)
  gtk_box_classes : list string;
  (** What the conversion to [gint64] yields for a [double] whose
      truncation does not fit the type: C leaves it undefined, so it is
      whatever the machine gives (the least [gint64] on x86-64). *)
  int64_of_out_of_range : R -> Z
}.

(** ** The macros of GLib *)

Definition MAX (a b : R) : R := if Rgt_dec a b then a else b.

Definition CLAMP (x low high : R) : R :=
  if Rgt_dec x high then high else if Rlt_dec x low then low else x.

Definition ZMAX (a b : Z) : Z := if (a >? b)%Z then a else b.

Definition ZCLAMP (x low high : Z) : Z :=
  if (x >? high)%Z then high else if (x <? low)%Z then low else x.

Definition G_MAXUINT : Z := 4294967295.

Definition G_MININT64 : Z := -9223372036854775808.

Definition G_MAXINT64 : Z := 9223372036854775807.

(** The conversion of a [double] to [gint64]: the truncation where it fits
    the type, and otherwise the [gint64] the platform yields. *)
Definition double_to_int64 `{Platform} (d : R) : Z :=
  if ((G_MININT64 <=? Rtrunc d) && (Rtrunc d <=? G_MAXINT64))%Z
  then Rtrunc d
  else ZCLAMP (int64_of_out_of_range d) G_MININT64 G_MAXINT64.

Definition json_node_get_int `{Platform} (node : JsonNode) : Z :=
  match node with
  | JInt i => i
  | JDouble d => double_to_int64 d
  | JBool b => if b then 1%Z else 0%Z
  | _ => 0%Z
  end.

(** ** The instance *)

Record CodexShimmer : Type := mkShimmer {
  cache_path : option string;
  text_plain : option string;
  tooltip_text : option string;
  style_classes : list string;
  base_rgba : GdkRGBA;
  highlight_rgba : GdkRGBA;
  period_ms : R;
  width_chars : R;
  cycles : R;
  tick_ms : Z;
  pause_ms : R;
  highlight_alpha : R;
  base_alpha : R;
  start_time_us : Z;
  (** the style classes of [container], as its style context holds them *)
  container_classes : list string;
  (** the tooltip of [drawing_area] *)
  widget_tooltip : option string;
  (** the size request of [drawing_area]; absent until one is made *)
  size_request : option (Z * Z)
}.

Definition placeholder_text : string := "Waiting for Codex…".

(** ** Helpers of the module *)

Definition default_cache_path `{Platform} : string :=
  g_build_filename [g_get_home_dir; ".cache"; "codex-shimmer"; "latest.json"]%string.

(** [parse_json_value]: the root of the parsed value, [None] for an absent
    value, a syntax error or a document without content. *)
Definition parse_json_value `{Platform} (value : option string) : option JsonNode :=
  match value with
  | None => None
  | Some v =>
      match json_parser_load_from_data v with
      | None => None
      | Some root => root
      end
  end.

Definition expand_user_path `{Platform} (path : option string) : option string :=
  match path with
  | None => None
  | Some EmptyString => Some EmptyString
  | Some (String c rest as p) =>
      if Ascii.eqb c "~"%char
      then Some (g_build_filename [g_get_home_dir; rest])
      else Some p
  end.

Definition json_node_is_number (node : option JsonNode) : bool :=
  match node with
  | None => false
  | Some n =>
      match json_node_get_node_type n with
      | JSON_NODE_VALUE =>
          match json_node_get_value_type n with
          | G_TYPE_DOUBLE | G_TYPE_INT64 => true
          | _ => false
          end
      | _ => false
      end
  end.

Definition json_node_get_double_or (node : option JsonNode) (fallback : R) : R :=
  match node with
  | Some n => if json_node_is_number node then json_node_get_double n else fallback
  | None => fallback
  end.

Definition json_node_get_uint_or `{Platform} (node : option JsonNode)
  (fallback : Z) : Z :=
  match node with
  | Some n =>
      if json_node_is_number node
      then ZCLAMP (json_node_get_int n) 0 G_MAXUINT
      else fallback
  | None => fallback
  end.

Definition json_node_is_string (node : option JsonNode) : bool :=
  match node with
  | None => false
  | Some n =>
      match json_node_get_node_type n with
      | JSON_NODE_VALUE =>
          match json_node_get_value_type n with
          | G_TYPE_STRING => true
          | _ => false
          end
      | _ => false
      end
  end.

(** A configuration entry: key and value, the value a small JSON text. *)
Definition wbcffi_config_entry : Type := (string * string)%type.

Fixpoint config_lookup (entries : list wbcffi_config_entry) (key : string)
  : option string :=
  match entries with
  | [] => None
  | (k, v) :: rest =>
      if String.eqb k key then Some v else config_lookup rest key
  end.

(** ** Style classes *)

Definition gtk_style_context_remove_class (ctx : list string) (cl : string)
  : list string :=
  filter (fun c => negb (String.eqb c cl)) ctx.

Definition gtk_style_context_add_class (ctx : list string) (cl : string)
  : list string :=
  if existsb (String.eqb cl) ctx then ctx else ctx ++ [cl].

Definition set_classes (owned ctx : list string) (inst : CodexShimmer)
  : CodexShimmer :=
  mkShimmer (cache_path inst) (text_plain inst) (tooltip_text inst) owned
    (base_rgba inst) (highlight_rgba inst) (period_ms inst) (width_chars inst)
    (cycles inst) (tick_ms inst) (pause_ms inst) (highlight_alpha inst)
    (base_alpha inst) (start_time_us inst) ctx (widget_tooltip inst)
    (size_request inst).

(** [free_style_classes]: every class the module owns is removed from the
    container, and the owned array is emptied. *)
Definition free_style_classes (inst : CodexShimmer) : CodexShimmer :=
  set_classes []
    (fold_left gtk_style_context_remove_class (style_classes inst)
       (container_classes inst))
    inst.

(** The loop of [update_style_classes] over the elements of the array. *)
Fixpoint add_style_classes (elements : list JsonNode) (owned ctx : list string)
  : list string * list string :=
  match elements with
  | [] => (owned, ctx)
  | node :: rest =>
      if json_node_is_string (Some node)
      then
        match json_node_get_string node with
        | Some cl =>
            add_style_classes rest (owned ++ [cl])
              (gtk_style_context_add_class ctx cl)
        | None => add_style_classes rest owned ctx
        end
      else add_style_classes rest owned ctx
  end.

Definition update_style_classes (inst : CodexShimmer)
  (classes : option (list JsonNode)) : CodexShimmer :=
  let inst := free_style_classes inst in
  match classes with
  | None => inst
  | Some elements =>
      let '(owned, ctx) :=
        add_style_classes elements (style_classes inst) (container_classes inst) in
      set_classes owned ctx inst
  end.

(** ** Loading the cache *)

Definition g_file_get_contents (fs : string -> option string)
  (path : option string) : option string :=
  match path with
  | Some p => fs p
  | None => None
  end.

(** The class array of [load_cache]: the array of the [class] member, or a
    fresh one-element array for a [class] member that is a string. *)
Definition cache_classes (obj : list (string * JsonNode)) : option (list JsonNode) :=
  let classes_node :=
    if json_object_has_member obj "class"
    then json_object_get_member obj "class" else None in
  let classes :=
    match classes_node with
    | Some (JArray elements) => Some elements
    | _ => None
    end in
  match classes, classes_node with
  | None, Some node =>
      if json_node_is_string classes_node
      then
        match json_node_get_string node with
        | Some s => Some [JString s]
        | None => None
        end
      else None
  | _, _ => classes
  end.

Definition load_cache `{Platform} (fs : string -> option string) (now : Z)
  (inst : CodexShimmer) : bool * CodexShimmer :=
  match g_file_get_contents fs (cache_path inst) with
  | None => (false, inst)
  | Some contents =>
      match json_parser_load_from_data contents with
      | None => (false, inst)
      | Some (Some (JObject obj)) =>
          let text :=
            if json_object_has_member obj "text"
            then json_object_get_string_member obj "text" else None in
          let tooltip :=
            if json_object_has_member obj "tooltip"
            then json_object_get_string_member obj "tooltip" else None in
          let classes := cache_classes obj in
          let new_text :=
            match text with
            | Some t => t
            | None => placeholder_text
            end in
          let styled := update_style_classes inst classes in
          let '(width_px, height_px) := pango_layout_get_pixel_size false new_text in
          (true,
           mkShimmer (cache_path inst) (Some new_text) tooltip
             (style_classes styled) (base_rgba inst) (highlight_rgba inst)
             (period_ms inst) (width_chars inst) (cycles inst) (tick_ms inst)
             (pause_ms inst) (highlight_alpha inst) (base_alpha inst)
             now (container_classes styled) tooltip
             (Some (ZMAX (width_px + 16) 80, height_px + 8)%Z))
      | Some _ => (false, inst)
      end
  end.

(** ** Initialisation *)

(** The block repeated in [wbcffi_init] for a numeric key: when the key is
    configured its value is parsed and read as a number, the current value
    of the field being the fallback. *)
Definition config_double `{Platform} (entries : list wbcffi_config_entry)
  (key : string) (current : R) : R :=
  match config_lookup entries key with
  | Some cfg => json_node_get_double_or (parse_json_value (Some cfg)) current
  | None => current
  end.

Definition config_uint `{Platform} (entries : list wbcffi_config_entry)
  (key : string) (current : Z) : Z :=
  match config_lookup entries key with
  | Some cfg => json_node_get_uint_or (parse_json_value (Some cfg)) current
  | None => current
  end.

Definition config_alpha `{Platform} (entries : list wbcffi_config_entry)
  (key : string) (current : R) : R :=
  match config_lookup entries key with
  | Some cfg =>
      CLAMP (json_node_get_double_or (parse_json_value (Some cfg)) current) 0 1
  | None => current
  end.

Definition config_color `{Platform} (entries : list wbcffi_config_entry)
  (key : string) (current : GdkRGBA) : GdkRGBA :=
  match config_lookup entries key with
  | Some cfg =>
      let node := parse_json_value (Some cfg) in
      if json_node_is_string node
      then
        match node with
        | Some n =>
            match json_node_get_string n with
            | Some spec =>
                match gdk_rgba_parse spec with
                | Some c => c
                | None => current
                end
            | None => current
            end
        | None => current
        end
      else current
  | None => current
  end.

Definition config_cache_path `{Platform} (entries : list wbcffi_config_entry)
  : option string :=
  match config_lookup entries "cache_path" with
  | Some cfg =>
      let node := parse_json_value (Some cfg) in
      if json_node_is_string node
      then
        match node with
        | Some n => expand_user_path (json_node_get_string n)
        | None => None
        end
      else None
  | None => None
  end.

Definition default_color `{Platform} (spec : string) : GdkRGBA :=
  match gdk_rgba_parse spec with
  | Some c => c
  | None => rgba_zero
  end.

(** The instance as [wbcffi_init] has it when it reads the clock: the
    defaults, the configured values, and the final clamping. *)
Definition configure `{Platform} (entries : list wbcffi_config_entry) (now : Z)
  : CodexShimmer :=
  let path :=
    match config_cache_path entries with
    | Some p => p
    | None => default_cache_path
    end in
  let period := config_double entries "period_ms" 1600 in
  let width :=
    match config_lookup entries "width_chars" with
    | Some _ => config_double entries "width_chars" 4
    | None => config_double entries "width" 4
    end in
  let pause := config_double entries "pause_ms" 500 in
  let cyc := config_double entries "cycles" 1 in
  let tick := config_uint entries "tick_ms" 33 in
  let base := config_color entries "base_color" (default_color "#C7D3FF") in
  let highlight :=
    config_color entries "highlight_color"
      (set_alpha (35 / 100) (default_color "#FFFFFF")) in
  let h_alpha := config_alpha entries "highlight_alpha" (35 / 100) in
  let b_alpha := config_alpha entries "base_alpha" 1 in
  mkShimmer (Some path) None None []
    (set_alpha b_alpha base) (set_alpha h_alpha highlight)
    (MAX period 200) (CLAMP width 1 20) (CLAMP cyc (1 / 10) 6)
    (ZCLAMP tick 5 1000) (MAX pause 0) h_alpha b_alpha
    now gtk_box_classes None None.

(** [wbcffi_init]: the configured instance, then the first load of the
    cache, whose outcome is not consulted. [t_start] and [t_load] are the
    two readings of the monotonic clock. *)
Definition wbcffi_init `{Platform} (entries : list wbcffi_config_entry)
  (fs : string -> option string) (t_start t_load : Z) : CodexShimmer :=
  snd (load_cache fs t_load (configure entries t_start)).

Definition wbcffi_refresh `{Platform} (fs : string -> option string) (now : Z)
  (inst : CodexShimmer) : CodexShimmer :=
  snd (load_cache fs now inst).

Definition wbcffi_doaction `{Platform} (name : option string)
  (fs : string -> option string) (now : Z) (inst : CodexShimmer)
  : CodexShimmer :=
  match name with
  | Some n =>
      if String.eqb n "reload" then wbcffi_refresh fs now inst else inst
  | None => inst
  end.

Inductive GFileMonitorEvent : Type :=
| G_FILE_MONITOR_EVENT_CHANGED
| G_FILE_MONITOR_EVENT_CHANGES_DONE_HINT
| G_FILE_MONITOR_EVENT_DELETED
| G_FILE_MONITOR_EVENT_CREATED
| G_FILE_MONITOR_EVENT_ATTRIBUTE_CHANGED
| G_FILE_MONITOR_EVENT_PRE_UNMOUNT
| G_FILE_MONITOR_EVENT_UNMOUNTED
| G_FILE_MONITOR_EVENT_MOVED
| G_FILE_MONITOR_EVENT_RENAMED
| G_FILE_MONITOR_EVENT_MOVED_IN
| G_FILE_MONITOR_EVENT_MOVED_OUT.

Definition handle_file_change `{Platform} (event : GFileMonitorEvent)
  (fs : string -> option string) (now : Z) (inst : CodexShimmer)
  : CodexShimmer :=
  match event with
  | G_FILE_MONITOR_EVENT_CHANGED
  | G_FILE_MONITOR_EVENT_CREATED
  | G_FILE_MONITOR_EVENT_CHANGES_DONE_HINT
  | G_FILE_MONITOR_EVENT_MOVED_IN
  | G_FILE_MONITOR_EVENT_MOVED => snd (load_cache fs now inst)
  | _ => inst
  end.

(** ** Drawing *)

Record color_stop : Type := mkStop {
  stop_offset : R;
  stop_red : R;
  stop_green : R;
  stop_blue : R;
  stop_alpha : R
}.

(** The paint operations [on_draw] issues, both translated by [(x, y)]: the
    layout shown with a plain source under the OVER operator, and a linear
    gradient painted through the glyph outlines under the SCREEN operator. *)
Inductive paint_op : Type :=
| ShowLayout (text : string) (x y : R) (source : GdkRGBA)
| PaintGradient (text : string) (x y : R) (gradient_start gradient_end : R)
    (stops : list color_stop).

Record frame : Type := mkFrame {
  handled : bool;
  painted : list paint_op
}.

Definition g_utf8_skip (c : ascii) : nat :=
  let n := nat_of_ascii c in
  if (n <? 192)%nat then 1
  else if (n <? 224)%nat then 2
  else if (n <? 240)%nat then 3
  else if (n <? 248)%nat then 4
  else if (n <? 252)%nat then 5
  else if (n <? 254)%nat then 6
  else 1%nat.

(** [g_utf8_strlen] with no length limit: one character per lead byte, the
    bytes the lead byte announces being stepped over. *)
Fixpoint utf8_strlen_from (pending : nat) (s : string) : Z :=
  match s with
  | EmptyString => 0%Z
  | String c rest =>
      match pending with
      | O => (1 + utf8_strlen_from (g_utf8_skip c - 1) rest)%Z
      | S k => utf8_strlen_from k rest
      end
  end.

Definition g_utf8_strlen (s : string) : Z := utf8_strlen_from 0 s.

(** [fmod x y]: [x] less the multiple of [y] given by the truncated
    quotient. *)
Definition fmod (x y : R) : R := x - IZR (Rtrunc (x / y)) * y.

Definition two_64 : Z := 18446744073709551616.

(** The elapsed time of [on_draw], in milliseconds: the difference is taken
    in [guint64]. *)
Definition elapsed_ms (inst : CodexShimmer) (now : Z) : R :=
  IZR ((now - start_time_us inst) mod two_64) / 1000.

Definition total_cycle (inst : CodexShimmer) : R :=
  period_ms inst + pause_ms inst.

Definition cycle_pos (inst : CodexShimmer) (elapsed : R) : R :=
  fmod elapsed (total_cycle inst).

Definition envelope (phase : R) : R :=
  if Rlt_dec phase (1 / 2) then phase * 2 else (1 - phase) * 2.

Definition center_px (width_px layout_width_px phase : R) : R :=
  let start_offset := - width_px in
  let travel := layout_width_px + width_px * 2 in
  start_offset + phase * travel.

Definition steps : nat := 96.

(** The colour stop the loop of [on_draw] adds at index [i]. *)
Definition gradient_stop (inst : CodexShimmer)
  (gradient_start gradient_end center width_px env : R) (i : nat) : color_stop :=
  let offset := INR i / INR steps in
  let px := gradient_start + offset * (gradient_end - gradient_start) in
  let delta := (px - center) / width_px in
  let gaussian := exp (- (1 / 2) * delta * delta) in
  let a := highlight_alpha inst * env * gaussian in
  mkStop offset (red (highlight_rgba inst)) (green (highlight_rgba inst))
    (blue (highlight_rgba inst)) (CLAMP a 0 1).

(** The highlight pass of [on_draw], for a layout of positive width at a
    position of the cycle inside the sweep. *)
Definition highlight_pass (inst : CodexShimmer) (text : string)
  (layout_width_px : Z) (x y pos : R) : paint_op :=
  let glyphs := ZMAX 1 (g_utf8_strlen text) in
  let avg_char_width :=
    if (glyphs >? 0)%Z then IZR layout_width_px / IZR glyphs
    else IZR layout_width_px in
  let base_width := MAX (avg_char_width * width_chars inst) avg_char_width in
  let phase := pos / period_ms inst in
  let env := envelope phase in
  let width_px := MAX (avg_char_width * (6 / 10)) (base_width * env) in
  let width_px := MAX width_px (avg_char_width * (6 / 10)) in
  let center := center_px width_px (IZR layout_width_px) phase in
  let gradient_start := center - width_px * 2 in
  let gradient_end := center + width_px * 2 in
  let gradient_end :=
    if Rle_dec gradient_end gradient_start then gradient_start + 1
    else gradient_end in
  PaintGradient text x y gradient_start gradient_end
    (map (gradient_stop inst gradient_start gradient_end center width_px env)
       (seq 0 (S steps))).

(** [on_draw], for a widget allocated [alloc_height] pixels, at the reading
    [now] of the monotonic clock. *)
Definition on_draw `{Platform} (inst : CodexShimmer) (alloc_height : Z) (now : Z)
  : frame :=
  match text_plain inst with
  | None => mkFrame false []
  | Some text =>
      let '(layout_width_px, layout_height_px) :=
        pango_layout_get_pixel_size true text in
      if (layout_width_px <=? 0)%Z then mkFrame true []
      else
        let x := 0 in
        let y := IZR (alloc_height - layout_height_px) / 2 in
        let base_pass := ShowLayout text x y (base_rgba inst) in
        let pos := cycle_pos inst (elapsed_ms inst now) in
        if Rge_dec pos (period_ms inst) then mkFrame true [base_pass]
        else if Rle_dec (highlight_alpha inst) 0 then mkFrame true [base_pass]
        else
          mkFrame true
            [base_pass; highlight_pass inst text layout_width_px x y pos]
  end.

(** ** A platform for the examples

    A stand-in for the libraries: a parser that knows the documents of the
    examples, a home directory, a join of path elements, two colours, and a
    fixed-pitch font. *)

Module Fixture.

Local Open Scope string_scope.

Definition dq : string := String "034"%char EmptyString.

Definition quoted (s : string) : string := dq ++ s ++ dq.

Definition doc_hello : string := "{" ++ quoted "text" ++ ":" ++ quoted "Hello" ++ "}".
Definition doc_empty_text : string := "{" ++ quoted "text" ++ ":" ++ quoted EmptyString ++ "}".
Definition doc_busy : string := "{" ++ quoted "class" ++ ":" ++ quoted "busy" ++ "}".
Definition doc_a_b : string :=
  "{" ++ quoted "class" ++ ":[" ++ quoted "a" ++ "," ++ quoted "b" ++ "]}".
Definition doc_mixed : string :=
  "{" ++ quoted "class" ++ ":[" ++ quoted "a" ++ ",1," ++ quoted "b" ++ ",null]}".
Definition doc_not_json : string := "{not json".
Definition doc_array_root : string := "[1]".

Definition documents : list (string * option (option JsonNode)) :=
  [ (doc_hello, Some (Some (JObject [("text", JString "Hello")])));
    (doc_empty_text, Some (Some (JObject [("text", JString EmptyString)])));
    (doc_busy, Some (Some (JObject [("class", JString "busy")])));
    (doc_a_b, Some (Some (JObject [("class", JArray [JString "a"; JString "b"])])));
    (doc_mixed,
     Some (Some (JObject
       [("class", JArray [JString "a"; JInt 1; JString "b"; JNull])])));
    (doc_array_root, Some (Some (JArray [JInt 1])));
    (EmptyString, Some None);
    ("0", Some (Some (JInt 0)));
    ("1", Some (Some (JInt 1)));
    ("50", Some (Some (JInt 50)));
    (quoted "~/x", Some (Some (JString "~/x")));
    (quoted "~alice/x", Some (Some (JString "~alice/x")));
    (quoted "/tmp/latest.json", Some (Some (JString "/tmp/latest.json"))) ].

Fixpoint parse_known (known : list (string * option (option JsonNode)))
  (data : string) : option (option JsonNode) :=
  match known with
  | [] => None
  | (text, result) :: rest =>
      if String.eqb text data then result else parse_known rest data
  end.

Fixpoint strip_leading (s : string) : string :=
  match s with
  | String c rest => if Ascii.eqb c "/"%char then strip_leading rest else s
  | EmptyString => s
  end.

Fixpoint join_elements (elements : list string) : string :=
  match elements with
  | [] => EmptyString
  | e :: rest =>
      match strip_leading e with
      | EmptyString => join_elements rest
      | body => "/" ++ body ++ join_elements rest
      end
  end.

(** The join of elements none of which ends in a separator. *)
Definition build_filename (elements : list string) : string :=
  match elements with
  | [] => EmptyString
  | first :: rest => first ++ join_elements rest
  end.

Definition parse_color (spec : string) : option GdkRGBA :=
  if String.eqb spec "#C7D3FF" then Some (mkRGBA (199 / 255) (211 / 255) 1 1)
  else if String.eqb spec "#FFFFFF" then Some (mkRGBA 1 1 1 1)
  else None.

Definition pixel_size (bold : bool) (text : string) : Z * Z :=
  ((if bold then 9 else 8) * Z.of_nat (String.length text), 16)%Z.

#[export] Instance platform : Platform := {
  json_parser_load_from_data := parse_known documents;
  g_get_home_dir := "/home/u";
  g_build_filename := build_filename;
  gdk_rgba_parse := parse_color;
  pango_layout_get_pixel_size := pixel_size;
  gtk_box_classes := ["horizontal"];
  int64_of_out_of_range := fun _ => G_MININT64
}.

(** File systems: no cache file, and one file at the default path. *)
Definition no_file : string -> option string := fun _ => None.

Definition one_file (path contents : string) : string -> option string :=
  fun p => if String.eqb p path then Some contents else None.

Definition default_path : string := "/home/u/.cache/codex-shimmer/latest.json".

End Fixture.

(** ** Notions used by the statements *)

(** The three ways a load fails: the file cannot be read, its contents are
    not JSON, or the root of the document is not an object. *)
Inductive load_error `{Platform} (fs : string -> option string)
  (inst : CodexShimmer) : Prop :=
| Unreadable :
    g_file_get_contents fs (cache_path inst) = None -> load_error fs inst
| Malformed (contents : string) :
    g_file_get_contents fs (cache_path inst) = Some contents ->
    json_parser_load_from_data contents = None -> load_error fs inst
| WrongShape (contents : string) (root : option JsonNode) :
    g_file_get_contents fs (cache_path inst) = Some contents ->
    json_parser_load_from_data contents = Some root ->
    (forall obj, root <> Some (JObject obj)) -> load_error fs inst.

(** The cache document a load reads: the object at the root of the parsed
    contents of the cache file. *)
Definition cache_document `{Platform} (fs : string -> option string)
  (inst : CodexShimmer) (obj : list (string * JsonNode)) : Prop :=
  exists contents,
    g_file_get_contents fs (cache_path inst) = Some contents
    /\ json_parser_load_from_data contents = Some (Some (JObject obj)).

(** A text the renderer can show: present and not empty. *)
Definition text_usable (inst : CodexShimmer) : Prop :=
  exists t, text_plain inst = Some t /\ t <> EmptyString.

(** The string elements of an array, in order. *)
Definition string_elements (elements : list JsonNode) : list string :=
  flat_map (fun node => match node with JString s => [s] | _ => [] end) elements.

(** The tags a [class] member stands for, by its shape. *)
Definition class_tags (member : option JsonNode) : list string :=
  match member with
  | Some (JArray elements) => string_elements elements
  | Some (JString s) => [s]
  | _ => []
  end.

(** The text a [text] member stands for. *)
Definition text_of_member (member : option JsonNode) : string :=
  match member with
  | Some (JString t) => t
  | _ => placeholder_text
  end.

Definition set_cycles (c : R) (inst : CodexShimmer) : CodexShimmer :=
  mkShimmer (cache_path inst) (text_plain inst) (tooltip_text inst)
    (style_classes inst) (base_rgba inst) (highlight_rgba inst)
    (period_ms inst) (width_chars inst) c (tick_ms inst) (pause_ms inst)
    (highlight_alpha inst) (base_alpha inst) (start_time_us inst)
    (container_classes inst) (widget_tooltip inst) (size_request inst).

Definition is_gradient (op : paint_op) : bool :=
  match op with
  | PaintGradient _ _ _ _ _ _ => true
  | ShowLayout _ _ _ _ => false
  end.

(** ** Notions used by the further properties *)

(** A run of loads, as the refresh and the file monitor callback make them
    one after the other: each load with the file system and the reading of
    the clock of its time. *)
Definition run_loads `{Platform} (events : list ((string -> option string) * Z))
  (inst : CodexShimmer) : CodexShimmer :=
  fold_left (fun i ev => snd (load_cache (fst ev) (snd ev) i)) events inst.

(** The locals of the highlight pass of [on_draw]: the average character
    width, the base width and the band width. *)
Definition avg_char_width (text : string) (layout_width_px : Z) : R :=
  let glyphs := ZMAX 1 (g_utf8_strlen text) in
  if (glyphs >? 0)%Z then IZR layout_width_px / IZR glyphs
  else IZR layout_width_px.

Definition base_width (inst : CodexShimmer) (text : string)
  (layout_width_px : Z) : R :=
  MAX (avg_char_width text layout_width_px * width_chars inst)
    (avg_char_width text layout_width_px).

Definition band_width (inst : CodexShimmer) (text : string)
  (layout_width_px : Z) (pos : R) : R :=
  let env := envelope (pos / period_ms inst) in
  let width_px :=
    MAX (avg_char_width text layout_width_px * (6 / 10))
      (base_width inst text layout_width_px * env) in
  MAX width_px (avg_char_width text layout_width_px * (6 / 10)).

(** The colour stops of a paint operation. *)
Definition gradient_stops_of (op : paint_op) : list color_stop :=
  match op with
  | PaintGradient _ _ _ _ _ stops => stops
  | ShowLayout _ _ _ _ => []
  end.

(** A key configured with a number: the first entry with the key has a
    value that parses to a JSON number, the node given. *)
Definition configured_number `{Platform} (entries : list wbcffi_config_entry)
  (key : string) (node : JsonNode) : Prop :=
  exists cfg,
    config_lookup entries key = Some cfg
    /\ parse_json_value (Some cfg) = Some node
    /\ json_node_is_number (Some node) = true.

(** An unusable configuration value: one that does not parse, or parses to
    a node that is neither a number nor a string. *)
Definition unusable_value `{Platform} (value : string) : Prop :=
  json_node_is_number (parse_json_value (Some value)) = false
  /\ json_node_is_string (parse_json_value (Some value)) = false.

(** Case analysis on the comparisons of [MAX] and [CLAMP]. *)
Ltac split_macros :=
  unfold MAX, CLAMP;
  repeat match goal with
         | |- context [Rgt_dec ?a ?b] => destruct (Rgt_dec a b)
         | |- context [Rlt_dec ?a ?b] => destruct (Rlt_dec a b)
         end;
  try lra.

(** ** Evaluation on the fixture *)

Example default_cache_path_fixture :
  @default_cache_path Fixture.platform = Fixture.default_path.
Proof. reflexivity. Qed.

Example expand_user_path_fixture :
  @expand_user_path Fixture.platform (Some "~alice/x"%string)
  = Some "/home/u/alice/x"%string
  /\ @expand_user_path Fixture.platform (Some "~/x"%string)
     = Some "/home/u/x"%string.
Proof. split; reflexivity. Qed.

Example placeholder_glyphs : g_utf8_strlen placeholder_text = 18%Z.
Proof. reflexivity. Qed.

Example load_hello_fixture :
  let inst :=
    @wbcffi_init Fixture.platform []
      (Fixture.one_file Fixture.default_path Fixture.doc_hello) 0 7 in
  text_plain inst = Some "Hello"%string
  /\ tooltip_text inst = None
  /\ style_classes inst = []
  /\ start_time_us inst = 7%Z
  /\ size_request inst = Some (80, 24)%Z.
Proof. repeat split; reflexivity. Qed.

(** ** Loading: lemmas *)

Section Loading.

Context `{Platform}.

Lemma json_object_has_get (obj : list (string * JsonNode)) (name : string) :
  (if json_object_has_member obj name
   then json_object_get_member obj name else None)
  = json_object_get_member obj name.
Proof.
  unfold json_object_has_member.
  destruct (json_object_get_member obj name); reflexivity.
Qed.

Lemma json_object_has_get_string (obj : list (string * JsonNode)) (name : string) :
  (if json_object_has_member obj name
   then json_object_get_string_member obj name else None)
  = json_object_get_string_member obj name.
Proof.
  unfold json_object_has_member, json_object_get_string_member.
  destruct (json_object_get_member obj name); reflexivity.
Qed.

(** What a successful load leaves in the instance. *)
Lemma load_cache_success (fs : string -> option string) (now : Z)
  (inst : CodexShimmer) (contents : string) (obj : list (string * JsonNode)) :
  g_file_get_contents fs (cache_path inst) = Some contents ->
  json_parser_load_from_data contents = Some (Some (JObject obj)) ->
  exists inst',
    load_cache fs now inst = (true, inst')
    /\ text_plain inst' = Some (text_of_member (json_object_get_member obj "text"))
    /\ tooltip_text inst' = json_object_get_string_member obj "tooltip"
    /\ widget_tooltip inst' = tooltip_text inst'
    /\ style_classes inst'
       = style_classes (update_style_classes inst (cache_classes obj))
    /\ container_classes inst'
       = container_classes (update_style_classes inst (cache_classes obj))
    /\ start_time_us inst' = now
    /\ cache_path inst' = cache_path inst
    /\ period_ms inst' = period_ms inst
    /\ width_chars inst' = width_chars inst
    /\ cycles inst' = cycles inst
    /\ tick_ms inst' = tick_ms inst
    /\ pause_ms inst' = pause_ms inst
    /\ highlight_alpha inst' = highlight_alpha inst
    /\ base_alpha inst' = base_alpha inst.
Proof.
  intros Hread Hparse. unfold load_cache. rewrite Hread, Hparse.
  rewrite !json_object_has_get_string.
  destruct (pango_layout_get_pixel_size false _) as [w h].
  eexists. split; [reflexivity|]. cbn.
  repeat split.
  unfold json_object_get_string_member, text_of_member.
  destruct (json_object_get_member obj "text") as [[]|]; reflexivity.
Qed.

(** A load either fails and changes nothing, or succeeds on a document. *)
Lemma load_cache_cases (fs : string -> option string) (now : Z)
  (inst : CodexShimmer) :
  (load_error fs inst /\ load_cache fs now inst = (false, inst))
  \/ (exists obj, cache_document fs inst obj
                  /\ fst (load_cache fs now inst) = true).
Proof.
  unfold load_cache, cache_document.
  destruct (g_file_get_contents fs (cache_path inst)) as [contents|] eqn:Hread.
  2:{ left. split; [now apply Unreadable|reflexivity]. }
  destruct (json_parser_load_from_data contents) as [root|] eqn:Hparse.
  2:{ left. split; [now apply (Malformed _ _ contents)|reflexivity]. }
  destruct root as [[| | | | | |obj]|];
    try (left; split;
         [apply (WrongShape _ _ contents _ Hread Hparse); intros o; discriminate
         |reflexivity]).
  right. exists obj. split; [exists contents; split; [reflexivity|assumption]|].
  destruct (pango_layout_get_pixel_size false _); reflexivity.
Qed.

End Loading.

(** ** Style classes: lemmas *)

Lemma add_style_classes_spec (elements : list JsonNode) :
  forall owned ctx,
    add_style_classes elements owned ctx
    = (owned ++ string_elements elements,
       fold_left gtk_style_context_add_class (string_elements elements) ctx).
Proof.
  induction elements as [|node rest IH]; intros owned ctx; cbn.
  - now rewrite app_nil_r.
  - destruct node; cbn; rewrite IH; try reflexivity.
    now rewrite <- app_assoc.
Qed.

Lemma remove_classes_In (owned : list string) :
  forall ctx cl,
    In cl (fold_left gtk_style_context_remove_class owned ctx)
    <-> In cl ctx /\ ~ In cl owned.
Proof.
  induction owned as [|o rest IH]; intros ctx cl; cbn.
  - tauto.
  - rewrite IH. unfold gtk_style_context_remove_class.
    rewrite filter_In, negb_true_iff, String.eqb_neq.
    split.
    + intros [[Hin Hne] Hrest]. split; [assumption|].
      intros [Heq|Hin']; [now subst|contradiction].
    + intros [Hin Hno]. repeat split; [assumption| |tauto].
      intros Heq. apply Hno. left. now symmetry.
Qed.

Lemma add_class_In (ctx : list string) (c cl : string) :
  In cl (gtk_style_context_add_class ctx c) <-> In cl ctx \/ cl = c.
Proof.
  unfold gtk_style_context_add_class.
  destruct (existsb (String.eqb c) ctx) eqn:Hex.
  - apply existsb_exists in Hex as [x [Hin Heq]].
    apply String.eqb_eq in Heq. subst x.
    split; [tauto|]. intros [Hin'|Heq]; [assumption|now subst].
  - rewrite in_app_iff. cbn. split.
    + intros [Hin|[Heq|[]]]; [now left|right; now symmetry].
    + intros [Hin|Heq]; [now left|right; left; now symmetry].
Qed.

Lemma add_classes_In (tags : list string) :
  forall ctx cl,
    In cl (fold_left gtk_style_context_add_class tags ctx)
    <-> In cl ctx \/ In cl tags.
Proof.
  induction tags as [|t rest IH]; intros ctx cl; cbn.
  - tauto.
  - rewrite IH, add_class_In. split.
    + intros [[Hin|Heq]|Hin]; [tauto|right; left; now symmetry|tauto].
    + intros [Hin|[Heq|Hin]]; [tauto|left; right; now symmetry|tauto].
Qed.

(** The class array of a document stands for the tags of its [class]
    member, and [update_style_classes] installs exactly those. *)
Lemma update_style_classes_spec (inst : CodexShimmer)
  (obj : list (string * JsonNode)) :
  let tags := class_tags (json_object_get_member obj "class") in
  let inst' := update_style_classes inst (cache_classes obj) in
  style_classes inst' = tags
  /\ container_classes inst'
     = fold_left gtk_style_context_add_class tags
         (fold_left gtk_style_context_remove_class (style_classes inst)
            (container_classes inst)).
Proof.
  cbn zeta. unfold cache_classes. rewrite json_object_has_get.
  destruct (json_object_get_member obj "class") as [node|]; [|now cbn].
  destruct node; try (now cbn).
  unfold update_style_classes. rewrite add_style_classes_spec. now cbn.
Qed.

(** ** The content pipeline *)

(** C1: a load of the cache that fails, because the file cannot be read,
    because its contents are not JSON, or because the root of the document
    is not an object, reports failure and returns the instance it was given:
    text, tooltip, tags (owned and applied) and animation epoch are those of
    before the load. The same holds of the entry points that load: the
    refresh, the file monitor callback and the reload action. *)
Theorem load_cache_failure_no_effect `{Platform}
  (fs : string -> option string) (now : Z) (inst : CodexShimmer) :
  load_error fs inst ->
  load_cache fs now inst = (false, inst)
  /\ text_plain (snd (load_cache fs now inst)) = text_plain inst
  /\ tooltip_text (snd (load_cache fs now inst)) = tooltip_text inst
  /\ style_classes (snd (load_cache fs now inst)) = style_classes inst
  /\ container_classes (snd (load_cache fs now inst)) = container_classes inst
  /\ start_time_us (snd (load_cache fs now inst)) = start_time_us inst
  /\ wbcffi_refresh fs now inst = inst
  /\ (forall event, handle_file_change event fs now inst = inst)
  /\ (forall name, wbcffi_doaction name fs now inst = inst).
Proof.
  intros Herr.
  assert (Hload : load_cache fs now inst = (false, inst)).
  { destruct (load_cache_cases fs now inst) as [[_ Heq]|[obj [Hdoc _]]];
      [assumption|].
    destruct Hdoc as [contents [Hread Hparse]].
    destruct Herr as [Hno|c Hread' Hbad|c root Hread' Hparse' Hshape].
    - congruence.
    - congruence.
    - exfalso. apply (Hshape obj). congruence. }
  unfold wbcffi_doaction, handle_file_change, wbcffi_refresh.
  rewrite Hload. cbn [snd]. repeat split.
  - intros event. destruct event; reflexivity.
  - intros [n|]; [destruct (String.eqb n "reload")|]; reflexivity.
Qed.

Lemma load_cache_failure_no_effect_witness :
  let shown :=
    @wbcffi_init Fixture.platform []
      (Fixture.one_file Fixture.default_path Fixture.doc_hello) 0 7 in
  let broken := Fixture.one_file Fixture.default_path Fixture.doc_not_json in
  @load_error Fixture.platform broken shown
  /\ @load_cache Fixture.platform broken 99 shown = (false, shown)
  /\ text_plain shown = Some "Hello"%string
  /\ start_time_us shown = 7%Z.
Proof.
  cbv zeta.
  assert (Herr : @load_error Fixture.platform
                   (Fixture.one_file Fixture.default_path Fixture.doc_not_json)
                   (@wbcffi_init Fixture.platform []
                      (Fixture.one_file Fixture.default_path Fixture.doc_hello) 0 7)).
  { apply (@Malformed Fixture.platform _ _ Fixture.doc_not_json); reflexivity. }
  split; [exact Herr|].
  split; [|split; reflexivity].
  exact (proj1 (@load_cache_failure_no_effect Fixture.platform _ 99%Z _ Herr)).
Defined.

(** C2, as the code has it: after a load that succeeds the text is present,
    and it is the [text] member of the document when that member is a
    string, the empty string included, and the placeholder otherwise; a load
    that fails keeps the text it found; the configured instance has no text
    before its first load, and [on_draw] then returns at once, unhandled and
    with nothing painted. *)
Theorem text_after_load `{Platform} :
  (forall fs now inst obj,
      cache_document fs inst obj ->
      text_plain (snd (load_cache fs now inst))
      = Some (text_of_member (json_object_get_member obj "text")))
  /\ (forall fs now inst,
         load_error fs inst ->
         text_plain (snd (load_cache fs now inst)) = text_plain inst)
  /\ (forall entries now, text_plain (configure entries now) = None)
  /\ (forall inst alloc_height now,
         text_plain inst = None ->
         on_draw inst alloc_height now = mkFrame false [])
  /\ placeholder_text <> EmptyString.
Proof.
  repeat split.
  - intros fs now inst obj [contents [Hread Hparse]].
    destruct (load_cache_success fs now inst contents obj Hread Hparse)
      as [inst' [Hload [Htext _]]].
    now rewrite Hload.
  - intros fs now inst Herr.
    destruct (load_cache_cases fs now inst) as [[_ Heq]|[obj [Hdoc _]]].
    + now rewrite Heq.
    + exfalso. destruct Hdoc as [contents [Hread Hparse]].
      destruct Herr as [Hno|c Hread' Hbad|c root Hread' Hparse' Hshape];
        [congruence|congruence|apply (Hshape obj); congruence].
  - intros inst alloc_height now Hnone. unfold on_draw. now rewrite Hnone.
  - discriminate.
Qed.

Lemma text_after_load_witness :
  let fs := Fixture.one_file Fixture.default_path Fixture.doc_hello in
  let inst := @configure Fixture.platform [] 0 in
  @cache_document Fixture.platform fs inst [("text"%string, JString "Hello")]
  /\ text_plain (snd (@load_cache Fixture.platform fs 7 inst))
     = Some "Hello"%string
  /\ text_plain inst = None
  /\ @on_draw Fixture.platform inst 24 5 = mkFrame false [].
Proof.
  cbv zeta.
  assert (Hdoc : @cache_document Fixture.platform
                   (Fixture.one_file Fixture.default_path Fixture.doc_hello)
                   (@configure Fixture.platform [] 0)
                   [("text"%string, JString "Hello")]).
  { exists Fixture.doc_hello. split; reflexivity. }
  destruct (@text_after_load Fixture.platform) as [Hok [_ [Hnew [Hdraw _]]]].
  split; [exact Hdoc|].
  split; [exact (Hok _ 7%Z _ _ Hdoc)|].
  split; [exact (Hnew [] 0%Z)|].
  exact (Hdraw _ 24%Z 5%Z (Hnew [] 0%Z)).
Defined.

(** C2, as stated, fails twice on the fixture. When the cache file is
    missing at start-up the instance has no text at all, and [on_draw] is
    still called on it; and a cache whose [text] member is the empty string
    is loaded as the empty text, not as the placeholder. *)
Lemma render_text_counterexample :
  let absent := @wbcffi_init Fixture.platform [] Fixture.no_file 0 0 in
  let empty :=
    @wbcffi_init Fixture.platform []
      (Fixture.one_file Fixture.default_path Fixture.doc_empty_text) 0 0 in
  (text_plain absent = None /\ ~ text_usable absent
   /\ @on_draw Fixture.platform absent 24 5 = mkFrame false [])
  /\ (text_plain empty = Some EmptyString /\ ~ text_usable empty
      /\ @on_draw Fixture.platform empty 24 5 = mkFrame true []).
Proof.
  cbv zeta. split; (split; [reflexivity|split]).
  - intros [t [Ht _]]. discriminate Ht.
  - reflexivity.
  - intros [t [Ht Hne]]. apply Hne. now inversion Ht.
  - reflexivity.
Qed.

(** C4: a load that succeeds on a document leaves as tags the tags of the
    [class] member of the document: the string elements of an array, in
    order, its other elements skipped; the one string of a string member;
    none for an absent member or one of another shape. The tags replace the
    previous ones: the classes of the container are those it had, less
    every tag owned before the load, plus the new tags. *)
Theorem load_cache_tags `{Platform}
  (fs : string -> option string) (now : Z) (inst : CodexShimmer)
  (obj : list (string * JsonNode)) :
  cache_document fs inst obj ->
  let inst' := snd (load_cache fs now inst) in
  let member := json_object_get_member obj "class" in
  fst (load_cache fs now inst) = true
  /\ style_classes inst' = class_tags member
  /\ (forall elements, member = Some (JArray elements) ->
        style_classes inst' = string_elements elements)
  /\ (forall s, member = Some (JString s) -> style_classes inst' = [s])
  /\ ((forall elements, member <> Some (JArray elements)) ->
      (forall s, member <> Some (JString s)) -> style_classes inst' = [])
  /\ container_classes inst'
     = fold_left gtk_style_context_add_class (style_classes inst')
         (fold_left gtk_style_context_remove_class (style_classes inst)
            (container_classes inst))
  /\ (forall cl,
        In cl (container_classes inst')
        <-> In cl (style_classes inst')
            \/ (In cl (container_classes inst) /\ ~ In cl (style_classes inst))).
Proof.
  intros [contents [Hread Hparse]]. cbv zeta.
  destruct (load_cache_success fs now inst contents obj Hread Hparse)
    as [inst' [Hload [_ [_ [_ [Hown [Hctx _]]]]]]].
  destruct (update_style_classes_spec inst obj) as [Htags Hcls].
  rewrite Hload. cbn [fst snd]. rewrite Hown, Hctx, Htags, Hcls.
  split; [reflexivity|]. split; [reflexivity|].
  split; [intros elements ->; reflexivity|].
  split; [intros s ->; reflexivity|].
  split.
  { intros Harr Hstr.
    destruct (json_object_get_member obj "class") as [[]|]; try reflexivity.
    - now elim (Hstr s).
    - now elim (Harr elements). }
  split; [reflexivity|].
  intros cl. rewrite add_classes_In, remove_classes_In. tauto.
Qed.

Lemma load_cache_tags_witness :
  let busy :=
    @wbcffi_init Fixture.platform []
      (Fixture.one_file Fixture.default_path Fixture.doc_busy) 0 1 in
  let fs := Fixture.one_file Fixture.default_path Fixture.doc_mixed in
  let after := snd (@load_cache Fixture.platform fs 2 busy) in
  @cache_document Fixture.platform fs busy
    [("class"%string, JArray [JString "a"; JInt 1; JString "b"; JNull])]
  /\ style_classes busy = ["busy"%string]
  /\ container_classes busy = ["horizontal"%string; "busy"%string]
  /\ style_classes after = ["a"%string; "b"%string]
  /\ container_classes after = ["horizontal"%string; "a"%string; "b"%string].
Proof.
  cbv zeta.
  assert (Hdoc : @cache_document Fixture.platform
            (Fixture.one_file Fixture.default_path Fixture.doc_mixed)
            (@wbcffi_init Fixture.platform []
               (Fixture.one_file Fixture.default_path Fixture.doc_busy) 0 1)
            [("class"%string, JArray [JString "a"; JInt 1; JString "b"; JNull])]).
  { exists Fixture.doc_mixed. split; reflexivity. }
  destruct (@load_cache_tags Fixture.platform _ 2%Z _ _ Hdoc)
    as [_ [_ [Harr _]]].
  split; [exact Hdoc|].
  split; [reflexivity|]. split; [reflexivity|].
  split; [exact (Harr _ eq_refl)|reflexivity].
Defined.

(** C5: a load that succeeds on the document whose one member is [text] with
    the value [Hello], from any instance, leaves the text [Hello], no
    tooltip, no tags, and the reading of the clock as the epoch, so that the
    elapsed time at that reading is zero. *)
Theorem load_cache_hello `{Platform}
  (fs : string -> option string) (now : Z) (inst : CodexShimmer) :
  cache_document fs inst [("text"%string, JString "Hello")] ->
  let inst' := snd (load_cache fs now inst) in
  fst (load_cache fs now inst) = true
  /\ text_plain inst' = Some "Hello"%string
  /\ tooltip_text inst' = None
  /\ widget_tooltip inst' = None
  /\ style_classes inst' = []
  /\ start_time_us inst' = now
  /\ elapsed_ms inst' now = 0.
Proof.
  intros [contents [Hread Hparse]]. cbv zeta.
  destruct (load_cache_success fs now inst contents _ Hread Hparse)
    as [inst' [Hload [Htext [Htip [Hwtip [Hown [_ [Hstart _]]]]]]]].
  rewrite Hload. cbn [fst snd].
  split; [reflexivity|]. split; [exact Htext|]. split; [exact Htip|].
  split; [now rewrite Hwtip, Htip|]. split; [now rewrite Hown|].
  split; [exact Hstart|].
  unfold elapsed_ms. rewrite Hstart, Z.sub_diag.
  change (0 mod two_64)%Z with 0%Z. lra.
Qed.

Lemma load_cache_hello_witness :
  let busy :=
    @wbcffi_init Fixture.platform []
      (Fixture.one_file Fixture.default_path Fixture.doc_busy) 0 1 in
  let fs := Fixture.one_file Fixture.default_path Fixture.doc_hello in
  let after := snd (@load_cache Fixture.platform fs 2 busy) in
  @cache_document Fixture.platform fs busy [("text"%string, JString "Hello")]
  /\ text_plain after = Some "Hello"%string
  /\ style_classes after = []
  /\ start_time_us after = 2%Z.
Proof.
  cbv zeta.
  assert (Hdoc : @cache_document Fixture.platform
            (Fixture.one_file Fixture.default_path Fixture.doc_hello)
            (@wbcffi_init Fixture.platform []
               (Fixture.one_file Fixture.default_path Fixture.doc_busy) 0 1)
            [("text"%string, JString "Hello")]).
  { exists Fixture.doc_hello. split; reflexivity. }
  destruct (@load_cache_hello Fixture.platform _ 2%Z _ Hdoc)
    as [_ [Htext [_ [_ [Hown [Hstart _]]]]]].
  split; [exact Hdoc|]. split; [exact Htext|]. split; [exact Hown|exact Hstart].
Defined.

(** ** Configuration *)

Lemma MAX_bounds (a b : R) : b <= MAX a b /\ a <= MAX a b.
Proof. split_macros. Qed.

Lemma MAX_below (a b : R) : a <= b -> MAX a b = b.
Proof. intros Hle. split_macros. Qed.

Lemma CLAMP_bounds (x low high : R) :
  low <= high -> low <= CLAMP x low high <= high.
Proof. intros Hle. split_macros. Qed.

Lemma CLAMP_above (x low high : R) : high < x -> CLAMP x low high = high.
Proof. intros Hlt. split_macros. Qed.

Lemma ZCLAMP_bounds (x low high : Z) :
  (low <= high)%Z -> (low <= ZCLAMP x low high <= high)%Z.
Proof.
  intros Hle. unfold ZCLAMP.
  destruct (x >? high)%Z eqn:Hhigh; [lia|].
  destruct (x <? low)%Z eqn:Hlow; lia.
Qed.

Lemma ZCLAMP_twice (i : Z) :
  ZCLAMP (ZCLAMP i 0 G_MAXUINT) 5 1000 = ZCLAMP i 5 1000.
Proof.
  unfold ZCLAMP, G_MAXUINT.
  destruct (i >? 4294967295)%Z eqn:H1; destruct (i <? 0)%Z eqn:H2;
    destruct (i >? 1000)%Z eqn:H3; destruct (i <? 5)%Z eqn:H4;
    try reflexivity; try lia;
    repeat match goal with
           | |- context [(?a >? ?b)%Z] => destruct (Z.gtb_spec a b)
           | |- context [(?a <? ?b)%Z] => destruct (Z.ltb_spec a b)
           end; lia.
Qed.

Section Configuration.

Context `{Platform}.

(** A load, whatever its outcome, keeps the path and the configuration. *)
Lemma load_cache_keeps_config (fs : string -> option string) (now : Z)
  (inst : CodexShimmer) :
  let inst' := snd (load_cache fs now inst) in
  cache_path inst' = cache_path inst
  /\ period_ms inst' = period_ms inst
  /\ width_chars inst' = width_chars inst
  /\ cycles inst' = cycles inst
  /\ tick_ms inst' = tick_ms inst
  /\ pause_ms inst' = pause_ms inst
  /\ highlight_alpha inst' = highlight_alpha inst
  /\ base_alpha inst' = base_alpha inst
  /\ base_rgba inst' = base_rgba inst
  /\ highlight_rgba inst' = highlight_rgba inst.
Proof.
  cbv zeta. unfold load_cache.
  destruct (g_file_get_contents fs (cache_path inst)) as [contents|];
    [|cbn; repeat split; reflexivity].
  destruct (json_parser_load_from_data contents) as [[root|]|];
    [|cbn; repeat split; reflexivity|cbn; repeat split; reflexivity].
  destruct root; try (cbn; repeat split; reflexivity).
  destruct (pango_layout_get_pixel_size false _).
  cbn. repeat split; reflexivity.
Qed.

Lemma config_alpha_bounds (entries : list wbcffi_config_entry) (key : string)
  (current : R) :
  0 <= current <= 1 -> 0 <= config_alpha entries key current <= 1.
Proof.
  intros Hcur. unfold config_alpha.
  destruct (config_lookup entries key); [apply CLAMP_bounds; lra|assumption].
Qed.

Lemma config_double_number (entries : list wbcffi_config_entry) (key cfg : string)
  (node : JsonNode) (current : R) :
  config_lookup entries key = Some cfg ->
  parse_json_value (Some cfg) = Some node ->
  json_node_is_number (Some node) = true ->
  config_double entries key current = json_node_get_double node.
Proof.
  intros Hcfg Hparse Hnum. unfold config_double.
  rewrite Hcfg, Hparse. unfold json_node_get_double_or. now rewrite Hnum.
Qed.

Lemma config_alpha_number (entries : list wbcffi_config_entry) (key cfg : string)
  (node : JsonNode) (current : R) :
  config_lookup entries key = Some cfg ->
  parse_json_value (Some cfg) = Some node ->
  json_node_is_number (Some node) = true ->
  config_alpha entries key current = CLAMP (json_node_get_double node) 0 1.
Proof.
  intros Hcfg Hparse Hnum. unfold config_alpha.
  rewrite Hcfg, Hparse. unfold json_node_get_double_or. now rewrite Hnum.
Qed.

Lemma config_uint_number (entries : list wbcffi_config_entry) (key cfg : string)
  (node : JsonNode) (current : Z) :
  config_lookup entries key = Some cfg ->
  parse_json_value (Some cfg) = Some node ->
  json_node_is_number (Some node) = true ->
  config_uint entries key current = ZCLAMP (json_node_get_int node) 0 G_MAXUINT.
Proof.
  intros Hcfg Hparse Hnum. unfold config_uint.
  rewrite Hcfg, Hparse. unfold json_node_get_uint_or. now rewrite Hnum.
Qed.

End Configuration.

(** C9: the instance [wbcffi_init] returns has its configuration clamped.
    A configured [period_ms] that is the number 50 gives the period 200, a
    configured [width_chars] that is the number 50 gives the width 20, a
    configured [tick_ms] that is the integer 1 gives the tick 5; and for
    every configuration the period is at least 200, the width in [1,20],
    the tick in [5,1000], the pause at least 0, the cycles in [0.1,6] and
    both alpha values in [0,1]. The stored values are the configured ones,
    clamped: a key configured with a number gives that number raised to
    200 for the period and to 0 for the pause, clamped to [1,20] for the
    width, to [0.1,6] for the cycles, to [0,1] for either alpha, and its
    integer value clamped to [5,1000] for the tick, so that a tick of 2000
    gives 1000; a key that is not configured gives the default of the
    field. *)
Theorem config_clamped `{Platform} (entries : list wbcffi_config_entry)
  (fs : string -> option string) (t_start t_load : Z) :
  let inst := wbcffi_init entries fs t_start t_load in
  (forall cfg node,
      config_lookup entries "period_ms" = Some cfg ->
      parse_json_value (Some cfg) = Some node ->
      json_node_is_number (Some node) = true ->
      json_node_get_double node = 50 ->
      period_ms inst = 200)
  /\ (forall cfg node,
         config_lookup entries "width_chars" = Some cfg ->
         parse_json_value (Some cfg) = Some node ->
         json_node_is_number (Some node) = true ->
         json_node_get_double node = 50 ->
         width_chars inst = 20)
  /\ (forall cfg node,
         config_lookup entries "tick_ms" = Some cfg ->
         parse_json_value (Some cfg) = Some node ->
         json_node_is_number (Some node) = true ->
         json_node_get_int node = 1%Z ->
         tick_ms inst = 5%Z)
  /\ 200 <= period_ms inst
  /\ 1 <= width_chars inst <= 20
  /\ (5 <= tick_ms inst <= 1000)%Z
  /\ 0 <= pause_ms inst
  /\ 1 / 10 <= cycles inst <= 6
  /\ 0 <= highlight_alpha inst <= 1
  /\ 0 <= base_alpha inst <= 1
  /\ (forall node,
         configured_number entries "period_ms" node ->
         period_ms inst = MAX (json_node_get_double node) 200)
  /\ (forall node,
         configured_number entries "width_chars" node ->
         width_chars inst = CLAMP (json_node_get_double node) 1 20)
  /\ (forall node,
         configured_number entries "tick_ms" node ->
         tick_ms inst = ZCLAMP (json_node_get_int node) 5 1000)
  /\ (forall node,
         configured_number entries "tick_ms" node ->
         json_node_get_int node = 2000%Z -> tick_ms inst = 1000%Z)
  /\ (forall node,
         configured_number entries "pause_ms" node ->
         pause_ms inst = MAX (json_node_get_double node) 0)
  /\ (forall node,
         configured_number entries "cycles" node ->
         cycles inst = CLAMP (json_node_get_double node) (1 / 10) 6)
  /\ (forall node,
         configured_number entries "highlight_alpha" node ->
         highlight_alpha inst = CLAMP (json_node_get_double node) 0 1)
  /\ (forall node,
         configured_number entries "base_alpha" node ->
         base_alpha inst = CLAMP (json_node_get_double node) 0 1)
  /\ (config_lookup entries "period_ms" = None -> period_ms inst = 1600)
  /\ (config_lookup entries "width_chars" = None ->
      config_lookup entries "width" = None -> width_chars inst = 4)
  /\ (config_lookup entries "tick_ms" = None -> tick_ms inst = 33%Z)
  /\ (config_lookup entries "pause_ms" = None -> pause_ms inst = 500)
  /\ (config_lookup entries "cycles" = None -> cycles inst = 1)
  /\ (config_lookup entries "highlight_alpha" = None ->
      highlight_alpha inst = 35 / 100)
  /\ (config_lookup entries "base_alpha" = None -> base_alpha inst = 1).
Proof.
  cbv zeta. unfold wbcffi_init.
  destruct (load_cache_keeps_config fs t_load (configure entries t_start))
    as [_ [Hp [Hw [Hc [Ht [Hpa [Hh [Hb _]]]]]]]].
  rewrite Hp, Hw, Hc, Ht, Hpa, Hh, Hb. unfold configure.
  cbn [period_ms width_chars cycles tick_ms pause_ms highlight_alpha base_alpha].
  split.
  { intros cfg node Hcfg Hparse Hnum Hval.
    rewrite (config_double_number _ _ _ _ _ Hcfg Hparse Hnum), Hval.
    apply MAX_below. lra. }
  split.
  { intros cfg node Hcfg Hparse Hnum Hval. rewrite Hcfg.
    rewrite (config_double_number _ _ _ _ _ Hcfg Hparse Hnum), Hval.
    apply CLAMP_above. lra. }
  split.
  { intros cfg node Hcfg Hparse Hnum Hval. unfold config_uint.
    rewrite Hcfg, Hparse. unfold json_node_get_uint_or. rewrite Hnum, Hval.
    reflexivity. }
  split; [apply MAX_bounds|].
  split; [apply CLAMP_bounds; lra|].
  split; [apply ZCLAMP_bounds; lia|].
  split; [apply MAX_bounds|].
  split; [apply CLAMP_bounds; lra|].
  split; [apply config_alpha_bounds; lra|].
  split; [apply config_alpha_bounds; lra|].
  split.
  { intros node [cfg [Hcfg [Hparse Hnum]]].
    now rewrite (config_double_number _ _ _ _ _ Hcfg Hparse Hnum). }
  split.
  { intros node [cfg [Hcfg [Hparse Hnum]]]. rewrite Hcfg.
    now rewrite (config_double_number _ _ _ _ _ Hcfg Hparse Hnum). }
  split.
  { intros node [cfg [Hcfg [Hparse Hnum]]].
    rewrite (config_uint_number _ _ _ _ _ Hcfg Hparse Hnum).
    apply ZCLAMP_twice. }
  split.
  { intros node [cfg [Hcfg [Hparse Hnum]]] Hval.
    rewrite (config_uint_number _ _ _ _ _ Hcfg Hparse Hnum), Hval.
    reflexivity. }
  split.
  { intros node [cfg [Hcfg [Hparse Hnum]]].
    now rewrite (config_double_number _ _ _ _ _ Hcfg Hparse Hnum). }
  split.
  { intros node [cfg [Hcfg [Hparse Hnum]]].
    now rewrite (config_double_number _ _ _ _ _ Hcfg Hparse Hnum). }
  split.
  { intros node [cfg [Hcfg [Hparse Hnum]]].
    now rewrite (config_alpha_number _ _ _ _ _ Hcfg Hparse Hnum). }
  split.
  { intros node [cfg [Hcfg [Hparse Hnum]]].
    now rewrite (config_alpha_number _ _ _ _ _ Hcfg Hparse Hnum). }
  unfold config_double, config_uint, config_alpha.
  split; [intros ->; split_macros|].
  split; [intros -> ->; split_macros|].
  split; [intros ->; reflexivity|].
  split; [intros ->; split_macros|].
  split; [intros ->; split_macros|].
  split; intros ->; reflexivity.
Qed.

Lemma config_clamped_witness :
  let entries :=
    [("period_ms", "50"); ("width_chars", "50"); ("tick_ms", "1")]%string in
  let inst := @wbcffi_init Fixture.platform entries Fixture.no_file 0 0 in
  let other :=
    @wbcffi_init Fixture.platform [("tick_ms", "50"); ("pause_ms", "50")]%string
      Fixture.no_file 0 0 in
  (period_ms inst = 200 /\ width_chars inst = 20 /\ tick_ms inst = 5%Z)
  /\ (@configured_number Fixture.platform
        [("tick_ms", "50"); ("pause_ms", "50")]%string "tick_ms" (JInt 50)
      /\ tick_ms other = 50%Z
      /\ pause_ms other = MAX (IZR 50) 0
      /\ period_ms other = 1600).
Proof.
  cbv zeta. split.
  - destruct (@config_clamped Fixture.platform
                [("period_ms", "50"); ("width_chars", "50"); ("tick_ms", "1")]%string
                Fixture.no_file 0%Z 0%Z) as [Hperiod [Hwidth [Htick _]]].
    split; [|split].
    + apply (Hperiod "50"%string (JInt 50)); reflexivity.
    + apply (Hwidth "50"%string (JInt 50)); reflexivity.
    + apply (Htick "1"%string (JInt 1)); reflexivity.
  - assert (Htick : @configured_number Fixture.platform
                      [("tick_ms", "50"); ("pause_ms", "50")]%string
                      "tick_ms" (JInt 50)).
    { exists "50"%string. repeat split. }
    assert (Hpause : @configured_number Fixture.platform
                       [("tick_ms", "50"); ("pause_ms", "50")]%string
                       "pause_ms" (JInt 50)).
    { exists "50"%string. repeat split. }
    destruct (@config_clamped Fixture.platform
                [("tick_ms", "50"); ("pause_ms", "50")]%string
                Fixture.no_file 0%Z 0%Z)
      as [_ [_ [_ [_ [_ [_ [_ [_ [_ [_ [_ [_ [Ht [_ [Hp [_ [_ [_ [Hd _]]]]]]]]]]]]]]]]]]].
    split; [exact Htick|]. split; [exact (Ht _ Htick)|].
    split; [exact (Hp _ Hpause)|exact (Hd eq_refl)].
Defined.

(** C10: a path whose first character is a tilde expands to the home
    directory joined with the rest of the path after that character,
    whatever the rest is: [~/x] to the join of home and [/x], and [~alice/x]
    to the join of home and [alice/x], the home being that of the current
    user. A path that does not start with a tilde is kept as it is. The
    path [wbcffi_init] stores for a configured [cache_path] string is the
    expansion of that string. *)
Theorem expand_user_path_tilde `{Platform} :
  (forall rest,
      expand_user_path (Some (String "~"%char rest))
      = Some (g_build_filename [g_get_home_dir; rest]))
  /\ expand_user_path (Some "~/x"%string)
     = Some (g_build_filename [g_get_home_dir; "/x"%string])
  /\ expand_user_path (Some "~alice/x"%string)
     = Some (g_build_filename [g_get_home_dir; "alice/x"%string])
  /\ (forall c rest,
         c <> "~"%char ->
         expand_user_path (Some (String c rest)) = Some (String c rest))
  /\ expand_user_path (Some EmptyString) = Some EmptyString
  /\ (forall entries fs t_start t_load cfg path,
         config_lookup entries "cache_path" = Some cfg ->
         parse_json_value (Some cfg) = Some (JString path) ->
         cache_path (wbcffi_init entries fs t_start t_load)
         = expand_user_path (Some path)).
Proof.
  split; [reflexivity|]. split; [reflexivity|]. split; [reflexivity|].
  split.
  { intros c rest Hc. cbn.
    destruct (Ascii.eqb c "~") eqn:Heq; [|reflexivity].
    apply Ascii.eqb_eq in Heq. contradiction. }
  split; [reflexivity|].
  intros entries fs t_start t_load cfg path Hcfg Hparse. unfold wbcffi_init.
  destruct (load_cache_keeps_config fs t_load (configure entries t_start))
    as [Hpath _].
  rewrite Hpath. unfold configure. cbn [cache_path].
  unfold config_cache_path. rewrite Hcfg, Hparse.
  cbn [json_node_is_string json_node_get_node_type json_node_get_value_type
       json_node_get_string].
  destruct path as [|c rest]; [reflexivity|].
  cbn [expand_user_path]. destruct (Ascii.eqb c "~"); reflexivity.
Qed.

Lemma expand_user_path_tilde_witness :
  let entries := [("cache_path"%string, Fixture.quoted "~alice/x")] in
  cache_path (@wbcffi_init Fixture.platform entries Fixture.no_file 0 0)
  = Some "/home/u/alice/x"%string
  /\ @expand_user_path Fixture.platform (Some "/tmp/latest.json"%string)
     = Some "/tmp/latest.json"%string.
Proof.
  cbv zeta.
  destruct (@expand_user_path_tilde Fixture.platform)
    as [_ [_ [_ [Hkeep [_ Hinit]]]]].
  split.
  - exact (Hinit [("cache_path"%string, Fixture.quoted "~alice/x")]
             Fixture.no_file 0%Z 0%Z (Fixture.quoted "~alice/x")
             "~alice/x"%string eq_refl eq_refl).
  - apply (Hkeep "/"%char "tmp/latest.json"%string). discriminate.
Defined.

(** ** The sweep *)

Lemma Rtrunc_unit (k : Z) (f : R) :
  (0 <= k)%Z -> 0 <= f < 1 -> Rtrunc (IZR k + f) = k.
Proof.
  intros Hk Hf. unfold Rtrunc.
  assert (Hk' : 0 <= IZR k) by now apply IZR_le.
  destruct (Rle_dec 0 (IZR k + f)) as [_|Hneg]; [|lra].
  apply Zfloor_eq. lra.
Qed.

(** [fmod] returns the offset into the cycle, whatever the number of whole
    cycles before it. *)
Lemma fmod_cycle (T pos : R) (k : Z) :
  0 < T -> (0 <= k)%Z -> 0 <= pos < T -> fmod (IZR k * T + pos) T = pos.
Proof.
  intros HT Hk Hpos. unfold fmod.
  replace ((IZR k * T + pos) / T) with (IZR k + pos / T) by (field; lra).
  rewrite Rtrunc_unit; [lra|assumption|].
  split.
  - apply Rmult_le_pos; [lra|]. left. now apply Rinv_0_lt_compat.
  - apply (Rmult_lt_reg_r T); [assumption|].
    replace (pos / T * T) with pos by (field; lra). lra.
Qed.

Lemma envelope_lipschitz (p q : R) :
  Rabs (envelope p - envelope q) <= 2 * Rabs (p - q).
Proof.
  unfold envelope.
  destruct (Rlt_dec p (1 / 2)), (Rlt_dec q (1 / 2));
    unfold Rabs;
    destruct (Rcase_abs (p - q));
    match goal with |- context [Rcase_abs ?e] => destruct (Rcase_abs e) end;
    lra.
Qed.

(** C7: the envelope of the renderer is continuous, is 0 at phase 0 and 1 at
    phase one half, tends to 0 as the phase tends to 1 inside [0,1), and
    takes the same value at equal distances on either side of one half. *)
Theorem envelope_triangle :
  continuity envelope
  /\ envelope 0 = 0
  /\ envelope (1 / 2) = 1
  /\ limit1_in envelope (fun phase => 0 <= phase < 1) 0 1
  /\ (forall d, envelope (1 / 2 - d) = envelope (1 / 2 + d)).
Proof.
  split.
  { intros p eps Heps. exists (eps / 2). split; [lra|].
    intros q [_ Hq]. cbn in *. unfold R_dist in *.
    pose proof (envelope_lipschitz q p). lra. }
  split; [unfold envelope; destruct (Rlt_dec 0 (1 / 2)); lra|].
  split; [unfold envelope; destruct (Rlt_dec (1 / 2) (1 / 2)); lra|].
  split.
  { intros eps Heps. exists (eps / 2). split; [lra|].
    intros q [_ Hq]. cbn in *. unfold R_dist in *.
    pose proof (envelope_lipschitz q 1) as Hlip.
    assert (H1 : envelope 1 = 0)
      by (unfold envelope; destruct (Rlt_dec 1 (1 / 2)); lra).
    rewrite H1 in Hlip. lra. }
  intros d. unfold envelope.
  destruct (Rlt_dec (1 / 2 - d) (1 / 2)), (Rlt_dec (1 / 2 + d) (1 / 2)); lra.
Qed.

(** C8: for a layout of positive width and a band of positive width, both
    fixed, the centre of the band is an affine function of the phase with a
    positive slope, hence strictly increasing; it is minus the band width at
    phase 0 and tends to the layout width plus the band width as the phase
    tends to 1 inside [0,1). *)
Theorem center_px_affine (width_px layout_width_px : R) :
  0 < layout_width_px ->
  0 < width_px ->
  (forall phase,
      center_px width_px layout_width_px phase
      = (layout_width_px + 2 * width_px) * phase + - width_px)
  /\ 0 < layout_width_px + 2 * width_px
  /\ (forall p q,
         p < q ->
         center_px width_px layout_width_px p < center_px width_px layout_width_px q)
  /\ center_px width_px layout_width_px 0 = - width_px
  /\ limit1_in (center_px width_px layout_width_px)
       (fun phase => 0 <= phase < 1) (layout_width_px + width_px) 1.
Proof.
  intros HL Hw. unfold center_px.
  split; [intros phase; lra|]. split; [lra|].
  split; [intros p q Hpq; nra|]. split; [lra|].
  intros eps Heps. exists (eps / (layout_width_px + 2 * width_px)).
  assert (Hslope : 0 < layout_width_px + 2 * width_px) by lra.
  split; [now apply Rdiv_lt_0_compat|].
  intros p [[Hp0 Hp1] Hdist]. cbn in *. unfold R_dist in *.
  apply (Rmult_lt_compat_l (layout_width_px + 2 * width_px)) in Hdist;
    [|assumption].
  replace ((layout_width_px + 2 * width_px)
           * (eps / (layout_width_px + 2 * width_px)))
    with eps in Hdist by (field; lra).
  rewrite Rabs_left1 in Hdist by lra.
  rewrite Rabs_left1 by nra. nra.
Qed.

Lemma center_px_affine_witness :
  0 < 100 /\ 0 < 10
  /\ center_px 10 100 0 = - 10
  /\ center_px 10 100 (1 / 4) < center_px 10 100 (1 / 2).
Proof.
  assert (HL : 0 < 100) by lra. assert (Hw : 0 < 10) by lra.
  destruct (center_px_affine 10 100 HL Hw) as [_ [_ [Hinc [Hzero _]]]].
  split; [exact HL|]. split; [exact Hw|]. split; [exact Hzero|].
  apply Hinc. lra.
Defined.

(** ** Drawing: lemmas *)

Section Drawing.

Context `{Platform}.

Lemma set_cycles_load_cache (fs : string -> option string) (now : Z)
  (inst : CodexShimmer) (c : R) :
  load_cache fs now (set_cycles c inst)
  = (fst (load_cache fs now inst), set_cycles c (snd (load_cache fs now inst))).
Proof.
  unfold load_cache. cbn [cache_path set_cycles].
  destruct (g_file_get_contents fs (cache_path inst)) as [contents|];
    [|reflexivity].
  destruct (json_parser_load_from_data contents) as [[root|]|];
    [|reflexivity|reflexivity].
  destruct root; try reflexivity.
  destruct (pango_layout_get_pixel_size false _).
  unfold update_style_classes.
  destruct (cache_classes members) as [elements|]; [|reflexivity].
  rewrite !add_style_classes_spec. reflexivity.
Qed.

Lemma on_draw_set_cycles (inst : CodexShimmer) (c : R) (alloc_height now : Z) :
  on_draw (set_cycles c inst) alloc_height now = on_draw inst alloc_height now.
Proof. reflexivity. Qed.

(** The frame of a layout of positive width. *)
Lemma on_draw_laid_out (inst : CodexShimmer) (alloc_height now : Z)
  (text : string) (w h : Z) :
  text_plain inst = Some text ->
  pango_layout_get_pixel_size true text = (w, h) ->
  (0 < w)%Z ->
  let y := IZR (alloc_height - h) / 2 in
  let pos := cycle_pos inst (elapsed_ms inst now) in
  on_draw inst alloc_height now
  = mkFrame true
      (ShowLayout text 0 y (base_rgba inst)
       :: (if Rge_dec pos (period_ms inst) then []
           else if Rle_dec (highlight_alpha inst) 0 then []
           else [highlight_pass inst text w 0 y pos])).
Proof.
  intros Htext Hsize Hw. cbv zeta. unfold on_draw. rewrite Htext, Hsize.
  destruct (w <=? 0)%Z eqn:Hle; [apply Z.leb_le in Hle; lia|].
  destruct (Rge_dec _ _); [reflexivity|].
  destruct (Rle_dec _ _); reflexivity.
Qed.

End Drawing.

(** C6, as the code has it: when the position in the cycle is at or past the
    period, or the highlight alpha is not positive, the frame holds no
    gradient; and when moreover the text is present and its layout has a
    positive width, the frame is handled and holds the base text pass and
    nothing else. *)
Theorem pause_skips_highlight `{Platform} (inst : CodexShimmer)
  (alloc_height now : Z) :
  cycle_pos inst (elapsed_ms inst now) >= period_ms inst
  \/ highlight_alpha inst <= 0 ->
  (forall op,
      In op (painted (on_draw inst alloc_height now)) -> is_gradient op = false)
  /\ (forall text w h,
         text_plain inst = Some text ->
         pango_layout_get_pixel_size true text = (w, h) ->
         (0 < w)%Z ->
         on_draw inst alloc_height now
         = mkFrame true
             [ShowLayout text 0 (IZR (alloc_height - h) / 2) (base_rgba inst)]).
Proof.
  intros Hskip.
  assert (Hlaid : forall text w h,
             text_plain inst = Some text ->
             pango_layout_get_pixel_size true text = (w, h) ->
             (0 < w)%Z ->
             on_draw inst alloc_height now
             = mkFrame true
                 [ShowLayout text 0 (IZR (alloc_height - h) / 2) (base_rgba inst)]).
  { intros text w h Htext Hsize Hw.
    rewrite (on_draw_laid_out inst alloc_height now text w h Htext Hsize Hw).
    cbv zeta.
    destruct (Rge_dec _ _) as [_|Hin]; [reflexivity|].
    destruct (Rle_dec _ _) as [_|Hpos]; [reflexivity|].
    destruct Hskip; contradiction. }
  split; [|exact Hlaid].
  intros op Hop.
  destruct (text_plain inst) as [text|] eqn:Htext.
  2:{ unfold on_draw in Hop. rewrite Htext in Hop. destruct Hop. }
  destruct (pango_layout_get_pixel_size true text) as [w h] eqn:Hsize.
  destruct (Z.ltb_spec 0 w) as [Hw|Hw].
  - rewrite (Hlaid text w h eq_refl Hsize Hw) in Hop.
    destruct Hop as [<-|[]]. reflexivity.
  - unfold on_draw in Hop. rewrite Htext, Hsize in Hop.
    destruct (w <=? 0)%Z eqn:Hle; [destruct Hop|].
    apply Z.leb_gt in Hle. lia.
Qed.

Lemma pause_skips_highlight_witness :
  let inst :=
    @wbcffi_init Fixture.platform [("highlight_alpha", "0")]%string
      (Fixture.one_file Fixture.default_path Fixture.doc_hello) 0 7 in
  let paused :=
    @wbcffi_init Fixture.platform []
      (Fixture.one_file Fixture.default_path Fixture.doc_hello) 0 7 in
  (highlight_alpha inst <= 0
   /\ @on_draw Fixture.platform inst 24 5000
      = mkFrame true [ShowLayout "Hello" 0 (IZR (24 - 16) / 2) (base_rgba inst)])
  /\ (cycle_pos paused (elapsed_ms paused 1700007) >= period_ms paused
      /\ @on_draw Fixture.platform paused 24 1700007
         = mkFrame true
             [ShowLayout "Hello" 0 (IZR (24 - 16) / 2) (base_rgba paused)]).
Proof.
  cbv zeta. split.
  2:{ set (paused := @wbcffi_init Fixture.platform []
                       (Fixture.one_file Fixture.default_path Fixture.doc_hello)
                       0 7).
      assert (Hp : period_ms paused = 1600).
      { cbn. split_macros. }
      assert (Hpa : pause_ms paused = 500).
      { cbn. split_macros. }
      assert (Hel : elapsed_ms paused 1700007 = IZR 0 * total_cycle paused + 1700).
      { unfold elapsed_ms. change (start_time_us paused) with 7%Z.
        change ((1700007 - 7) mod two_64)%Z with 1700000%Z. lra. }
      assert (Hpos : cycle_pos paused (elapsed_ms paused 1700007)
                     >= period_ms paused).
      { unfold cycle_pos. rewrite Hel.
        rewrite fmod_cycle; unfold total_cycle; try lra. lia. }
      split; [exact Hpos|].
      apply (proj2 (@pause_skips_highlight Fixture.platform paused 24%Z
                      1700007%Z (or_introl Hpos)) "Hello"%string 45%Z 16%Z);
        [reflexivity|reflexivity|lia]. }
  assert (Halpha :
            highlight_alpha
              (@wbcffi_init Fixture.platform [("highlight_alpha", "0")]%string
                 (Fixture.one_file Fixture.default_path Fixture.doc_hello) 0 7)
            <= 0).
  { cbn. split_macros. }
  split; [exact Halpha|].
  apply (proj2 (@pause_skips_highlight Fixture.platform _ 24%Z 5000%Z
                  (or_intror Halpha)) "Hello"%string 45%Z 16%Z);
    [reflexivity|reflexivity|lia].
Defined.

(** C6, as stated, fails where there is no text: the instance started
    without a cache file has the highlight disabled by its configuration,
    and its frame holds no base text pass either. *)
Lemma pause_base_pass_counterexample :
  let inst :=
    @wbcffi_init Fixture.platform [("highlight_alpha", "0")]%string
      Fixture.no_file 0 0 in
  highlight_alpha inst <= 0
  /\ text_plain inst = None
  /\ @on_draw Fixture.platform inst 24 5000 = mkFrame false [].
Proof.
  cbv zeta. split; [|split; reflexivity].
  cbn. split_macros.
Qed.

Lemma ZMAX_one (n : Z) : (1 <= ZMAX 1 n)%Z.
Proof. unfold ZMAX. destruct (Z.gtb_spec 1 n); lia. Qed.

Lemma avg_char_width_bounds (text : string) (layout_width_px : Z) :
  (0 < layout_width_px)%Z ->
  0 < avg_char_width text layout_width_px <= IZR layout_width_px.
Proof.
  intros Hw. unfold avg_char_width.
  pose proof (ZMAX_one (g_utf8_strlen text)) as Hg.
  destruct (Z.gtb_spec (ZMAX 1 (g_utf8_strlen text)) 0) as [_|Hle]; [|lia].
  apply IZR_lt in Hw. apply IZR_le in Hg.
  remember (IZR (ZMAX 1 (g_utf8_strlen text))) as g.
  remember (IZR layout_width_px) as lw.
  assert (Hinv : 0 < / g <= 1).
  { split; [apply Rinv_0_lt_compat; lra|].
    rewrite <- Rinv_1. apply Rinv_le_contravar; lra. }
  unfold Rdiv. split; nra.
Qed.

Lemma highlight_pass_band (inst : CodexShimmer) (text : string)
  (layout_width_px : Z) (x y pos : R) :
  let w := band_width inst text layout_width_px pos in
  let c := center_px w (IZR layout_width_px) (pos / period_ms inst) in
  let gradient_end :=
    if Rle_dec (c + w * 2) (c - w * 2) then c - w * 2 + 1 else c + w * 2 in
  highlight_pass inst text layout_width_px x y pos
  = PaintGradient text x y (c - w * 2) gradient_end
      (map (gradient_stop inst (c - w * 2) gradient_end c w
              (envelope (pos / period_ms inst)))
         (seq 0 (S steps))).
Proof. reflexivity. Qed.

Lemma band_width_positive (inst : CodexShimmer) (text : string)
  (layout_width_px : Z) (pos : R) :
  (0 < layout_width_px)%Z -> 0 < band_width inst text layout_width_px pos.
Proof.
  intros Hw.
  pose proof (avg_char_width_bounds text layout_width_px Hw) as [Havg _].
  unfold band_width. cbv zeta.
  match goal with
  | |- 0 < MAX ?a ?b => pose proof (MAX_bounds a b) as [Hfloor _]
  end.
  lra.
Qed.

(** The highlight pass of a layout of positive width, written out: the band
    centre at the phase, two band widths of gradient on either side. *)
Lemma highlight_pass_explicit (inst : CodexShimmer) (text : string)
  (layout_width_px : Z) (x y pos : R) :
  (0 < layout_width_px)%Z ->
  let phase := pos / period_ms inst in
  let bw := band_width inst text layout_width_px pos in
  let ctr := - bw + phase * (IZR layout_width_px + bw * 2) in
  highlight_pass inst text layout_width_px x y pos
  = PaintGradient text x y (ctr - bw * 2) (ctr + bw * 2)
      (map (gradient_stop inst (ctr - bw * 2) (ctr + bw * 2) ctr bw
              (envelope phase))
         (seq 0 97)).
Proof.
  intros Hw. cbv zeta.
  pose proof (band_width_positive inst text layout_width_px pos Hw) as Hbw.
  rewrite highlight_pass_band. unfold center_px. cbv zeta.
  destruct (Rle_dec _ _) as [Hdegenerate|_]; [lra|reflexivity].
Qed.

Lemma phase_range (period pos : R) :
  0 < period -> 0 <= pos < period -> 0 <= pos / period < 1.
Proof.
  intros Hperiod Hpos. split.
  - apply Rmult_le_pos; [lra|]. left. now apply Rinv_0_lt_compat.
  - apply (Rmult_lt_reg_r period); [assumption|].
    replace (pos / period * period) with pos by (field; lra). lra.
Qed.

Lemma phase_increasing (period pos1 pos2 : R) :
  0 < period -> pos1 < pos2 -> pos1 / period < pos2 / period.
Proof.
  intros Hperiod Hlt. unfold Rdiv.
  apply Rmult_lt_compat_r; [now apply Rinv_0_lt_compat|assumption].
Qed.

(** C3: the frame does not depend on the cycles value. Two instances that
    differ in [cycles] only draw the same frame, for the same text, layout
    measurements and clock reading; so do the instances of two
    configurations of which one has a further [cycles] entry in front. And
    whatever the cycles value, there is one traversal in each cycle of
    period plus pause. At an elapsed time of [k] whole cycles and an offset
    into the cycle, a shown text gets no highlight when the offset is in the
    pause, and when the offset is inside the period it gets the gradient of
    the phase offset over period: 97 stops over two band widths on either
    side of the centre, the centre being minus the band width plus the
    phase times the layout width and two band widths. That centre is at
    minus the band width at phase 0, stays below the layout width plus the
    band width, and is short of it by one minus the phase times the travel;
    and the phase is 0 at offset 0, below 1, and strictly increasing with
    the offset, so it runs through [0,1) once. *)
Theorem on_draw_ignores_cycles `{Platform} :
  (forall inst c alloc_height now,
      on_draw (set_cycles c inst) alloc_height now
      = on_draw inst alloc_height now)
  /\ (forall entries cfg fs t_start t_load alloc_height now,
         on_draw (wbcffi_init (("cycles"%string, cfg) :: entries) fs t_start t_load)
           alloc_height now
         = on_draw (wbcffi_init entries fs t_start t_load) alloc_height now)
  /\ (forall inst c alloc_height now (k : Z) (pos : R) text w h,
         200 <= period_ms inst ->
         0 <= pause_ms inst ->
         0 < highlight_alpha inst ->
         (0 <= k)%Z ->
         0 <= pos < total_cycle inst ->
         elapsed_ms inst now = IZR k * total_cycle inst + pos ->
         text_plain inst = Some text ->
         pango_layout_get_pixel_size true text = (w, h) ->
         (0 < w)%Z ->
         let y := IZR (alloc_height - h) / 2 in
         let phase := pos / period_ms inst in
         let bw := band_width inst text w pos in
         let ctr := - bw + phase * (IZR w + bw * 2) in
         on_draw (set_cycles c inst) alloc_height now
         = mkFrame true
             (ShowLayout text 0 y (base_rgba inst)
              :: (if Rlt_dec pos (period_ms inst)
                  then [PaintGradient text 0 y (ctr - bw * 2) (ctr + bw * 2)
                          (map (gradient_stop inst (ctr - bw * 2) (ctr + bw * 2)
                                  ctr bw (envelope phase))
                             (seq 0 97))]
                  else []))
         /\ (pos < period_ms inst ->
             0 <= phase < 1
             /\ 0 < bw
             /\ - bw <= ctr < IZR w + bw
             /\ IZR w + bw - ctr = (1 - phase) * (IZR w + bw * 2)))
  /\ (forall inst pos1 pos2,
         200 <= period_ms inst ->
         0 <= pos1 ->
         pos1 < pos2 ->
         pos2 < period_ms inst ->
         0 / period_ms inst = 0
         /\ 0 <= pos1 / period_ms inst
         /\ pos1 / period_ms inst < pos2 / period_ms inst
         /\ pos2 / period_ms inst < 1).
Proof.
  split; [intros; apply on_draw_set_cycles|].
  split.
  { intros entries cfg fs t_start t_load alloc_height now. unfold wbcffi_init.
    change (configure (("cycles"%string, cfg) :: entries) t_start)
      with (set_cycles
              (CLAMP (json_node_get_double_or (parse_json_value (Some cfg)) 1)
                 (1 / 10) 6)
              (configure entries t_start)).
    rewrite set_cycles_load_cache. cbn [snd]. apply on_draw_set_cycles. }
  split.
  { intros inst c alloc_height now k pos text w h
      Hperiod Hpause Halpha Hk Hpos Helapsed Htext Hsize Hw.
    cbv zeta.
    pose proof (band_width_positive inst text w pos Hw) as Hbw.
    split.
    - rewrite on_draw_set_cycles.
      rewrite (on_draw_laid_out inst alloc_height now text w h Htext Hsize Hw).
      cbv zeta. unfold cycle_pos. rewrite Helapsed.
      rewrite fmod_cycle; [|unfold total_cycle; lra|assumption|assumption].
      destruct (Rge_dec pos (period_ms inst)) as [Hout|Hin];
        destruct (Rlt_dec pos (period_ms inst)) as [Hlt|Hge];
        try lra; [reflexivity|].
      destruct (Rle_dec (highlight_alpha inst) 0); [lra|].
      now rewrite (highlight_pass_explicit inst text w 0 _ pos Hw).
    - intros Hin.
      assert (Hphase : 0 <= pos / period_ms inst < 1)
        by (apply phase_range; lra).
      apply IZR_lt in Hw.
      remember (pos / period_ms inst) as phase.
      remember (band_width inst text w pos) as bw.
      remember (IZR w) as lw.
      split; [exact Hphase|]. split; [exact Hbw|].
      split; [split; nra|ring]. }
  intros inst pos1 pos2 Hperiod Hpos1 Hlt Hpos2.
  split; [unfold Rdiv; ring|].
  split; [apply phase_range; lra|].
  split; [apply phase_increasing; lra|apply phase_range; lra].
Qed.

Lemma on_draw_ignores_cycles_witness :
  let inst :=
    @wbcffi_init Fixture.platform []
      (Fixture.one_file Fixture.default_path Fixture.doc_hello) 0 7 in
  let y := IZR (24 - 16) / 2 in
  let phase := 800 / period_ms inst in
  let bw := band_width inst "Hello" 45 800 in
  let ctr := - bw + phase * (IZR 45 + bw * 2) in
  (200 <= period_ms inst
   /\ 0 <= pause_ms inst
   /\ 0 < highlight_alpha inst
   /\ 0 <= 800 < total_cycle inst
   /\ elapsed_ms inst 5000007 = IZR 2 * total_cycle inst + 800)
  /\ @on_draw Fixture.platform (set_cycles 3 inst) 24 5000007
     = mkFrame true
         (ShowLayout "Hello" 0 y (base_rgba inst)
          :: (if Rlt_dec 800 (period_ms inst)
              then [PaintGradient "Hello" 0 y (ctr - bw * 2) (ctr + bw * 2)
                      (map (gradient_stop inst (ctr - bw * 2) (ctr + bw * 2)
                              ctr bw (envelope phase))
                         (seq 0 97))]
              else []))
  /\ 800 / period_ms inst < 1200 / period_ms inst.
Proof.
  cbv zeta.
  set (inst := @wbcffi_init Fixture.platform []
                 (Fixture.one_file Fixture.default_path Fixture.doc_hello) 0 7).
  assert (Hp : period_ms inst = 1600).
  { cbn. split_macros. }
  assert (Hpa : pause_ms inst = 500).
  { cbn. split_macros. }
  assert (Ha : highlight_alpha inst = 35 / 100) by reflexivity.
  assert (Hel : elapsed_ms inst 5000007 = 5000).
  { unfold elapsed_ms. change (start_time_us inst) with 7%Z.
    change ((5000007 - 7) mod two_64)%Z with 5000000%Z. lra. }
  assert (Hper : 200 <= period_ms inst) by lra.
  assert (Hpause : 0 <= pause_ms inst) by lra.
  assert (Halpha : 0 < highlight_alpha inst) by lra.
  assert (Hpos : 0 <= 800 < total_cycle inst) by (unfold total_cycle; lra).
  assert (Helapsed : elapsed_ms inst 5000007 = IZR 2 * total_cycle inst + 800)
    by (unfold total_cycle; lra).
  assert (Hk : (0 <= 2)%Z) by lia.
  assert (Hw : (0 < 45)%Z) by lia.
  assert (H800 : 0 <= 800) by lra.
  assert (Hlt : 800 < 1200) by lra.
  assert (H1200 : 1200 < period_ms inst) by lra.
  destruct (@on_draw_ignores_cycles Fixture.platform) as [_ [_ [Hframe Hphase]]].
  split; [repeat split; try assumption; apply Hpos|].
  split.
  - exact (proj1 (Hframe inst 3 24%Z 5000007%Z 2%Z 800 "Hello"%string 45%Z 16%Z
                    Hper Hpause Halpha Hk Hpos Helapsed eq_refl eq_refl Hw)).
  - exact (proj1 (proj2 (proj2 (Hphase inst 800 1200 Hper H800 Hlt H1200)))).
Defined.

(** * Further properties of the module *)

(** ** Configuration lookup and fallbacks *)

Lemma config_lookup_In (entries : list wbcffi_config_entry) (key value : string) :
  config_lookup entries key = Some value -> In (key, value) entries.
Proof.
  induction entries as [|[k v] rest IH]; cbn; [discriminate|].
  destruct (String.eqb k key) eqn:Heq.
  - apply String.eqb_eq in Heq. intros [= ->]. left. now subst.
  - intros Hrest. right. now apply IH.
Qed.

Lemma config_lookup_absent (entries : list wbcffi_config_entry) (key : string) :
  config_lookup entries key = None <-> (forall value, ~ In (key, value) entries).
Proof.
  induction entries as [|[k v] rest IH]; cbn.
  - split; [intros _ value []|reflexivity].
  - destruct (String.eqb k key) eqn:Heq.
    + apply String.eqb_eq in Heq. subst k. split; [discriminate|].
      intros Hno. elim (Hno v). now left.
    + apply String.eqb_neq in Heq. rewrite IH. split.
      * intros Hno value [[= Hk _]|Hin]; [contradiction|now apply (Hno value)].
      * intros Hno value Hin. apply (Hno value). now right.
Qed.

(** X1: [config_lookup] returns the value of the first entry with the key:
    it finds nothing exactly when no entry has the key, what it finds is an
    entry of the list, and entries after the first one with the key are
    never consulted. *)
Theorem config_lookup_first (entries : list wbcffi_config_entry) (key : string) :
  (config_lookup entries key = None <-> (forall value, ~ In (key, value) entries))
  /\ (forall value, config_lookup entries key = Some value -> In (key, value) entries)
  /\ (forall before value after,
         entries = before ++ (key, value) :: after ->
         (forall other, ~ In (key, other) before) ->
         config_lookup entries key = Some value).
Proof.
  split; [apply config_lookup_absent|]. split; [apply config_lookup_In|].
  intros before value after -> Hfresh.
  induction before as [|[k v] rest IH]; cbn.
  - now rewrite String.eqb_refl.
  - destruct (String.eqb k key) eqn:Heq.
    + apply String.eqb_eq in Heq. subst k. elim (Hfresh v). now left.
    + apply IH. intros other Hin. apply (Hfresh other). now right.
Qed.

Lemma config_lookup_first_witness :
  let entries := [("a", "1"); ("b", "2"); ("b", "3")]%string in
  config_lookup entries "b" = Some "2"%string
  /\ config_lookup entries "c" = None.
Proof.
  cbv zeta.
  destruct (config_lookup_first [("a", "1"); ("b", "2"); ("b", "3")]%string "b")
    as [_ [_ Hfirst]].
  split; [|reflexivity].
  apply (Hfirst [("a", "1")]%string "2"%string [("b", "3")]%string eq_refl).
  intros other [Heq|[]]. discriminate Heq.
Defined.

(** X2: the two clamps on the tick compose to one. For a configured
    [tick_ms] that is a number, the tick of the instance is the integer
    value of the number clamped to [5,1000]. For an integer that is the
    integer itself, so that a negative one gives 5, as any below 5 does, and
    one above 1000 gives 1000; for a double whose truncation fits [gint64]
    it is the truncation. For a double beyond that range the integer value
    is the one the platform's conversion yields, and the clamp applies to
    it. *)
Theorem tick_ms_single_clamp `{Platform} (entries : list wbcffi_config_entry)
  (fs : string -> option string) (t_start t_load : Z) (cfg : string)
  (node : JsonNode) :
  config_lookup entries "tick_ms" = Some cfg ->
  parse_json_value (Some cfg) = Some node ->
  json_node_is_number (Some node) = true ->
  let tick := tick_ms (wbcffi_init entries fs t_start t_load) in
  tick = ZCLAMP (json_node_get_int node) 5 1000
  /\ (forall i, node = JInt i -> tick = ZCLAMP i 5 1000)
  /\ (forall i, node = JInt i -> (i < 5)%Z -> tick = 5%Z)
  /\ (forall i, node = JInt i -> (1000 < i)%Z -> tick = 1000%Z)
  /\ (forall d,
         node = JDouble d ->
         (G_MININT64 <= Rtrunc d <= G_MAXINT64)%Z ->
         tick = ZCLAMP (Rtrunc d) 5 1000)
  /\ (forall d,
         node = JDouble d ->
         ~ (G_MININT64 <= Rtrunc d <= G_MAXINT64)%Z ->
         tick = ZCLAMP (ZCLAMP (int64_of_out_of_range d) G_MININT64 G_MAXINT64)
                  5 1000).
Proof.
  intros Hcfg Hparse Hnum. cbv zeta.
  assert (Htick : tick_ms (wbcffi_init entries fs t_start t_load)
                  = ZCLAMP (json_node_get_int node) 5 1000).
  { unfold wbcffi_init.
    destruct (load_cache_keeps_config fs t_load (configure entries t_start))
      as [_ [_ [_ [_ [Ht _]]]]].
    rewrite Ht. unfold configure. cbn [tick_ms].
    rewrite (config_uint_number _ _ _ _ _ Hcfg Hparse Hnum).
    apply ZCLAMP_twice. }
  rewrite Htick.
  split; [reflexivity|].
  split; [intros i ->; reflexivity|].
  split.
  { intros i -> Hlow. cbn. unfold ZCLAMP.
    destruct (Z.gtb_spec i 1000); [lia|]. destruct (Z.ltb_spec i 5); lia. }
  split.
  { intros i -> Hhigh. cbn. unfold ZCLAMP.
    destruct (Z.gtb_spec i 1000); lia. }
  split.
  - intros d -> [Hlow Hhigh]. cbn. unfold double_to_int64.
    apply Z.leb_le in Hlow, Hhigh. now rewrite Hlow, Hhigh.
  - intros d -> Hout. cbn. unfold double_to_int64.
    destruct (G_MININT64 <=? Rtrunc d)%Z eqn:Hlow;
      destruct (Rtrunc d <=? G_MAXINT64)%Z eqn:Hhigh; try reflexivity.
    apply Z.leb_le in Hlow, Hhigh. elim Hout. now split.
Qed.

Lemma tick_ms_single_clamp_witness :
  tick_ms (@wbcffi_init Fixture.platform [("tick_ms", "0")]%string
             Fixture.no_file 0 0) = 5%Z.
Proof.
  refine (proj1 (proj2 (proj2
            (@tick_ms_single_clamp Fixture.platform [("tick_ms", "0")]%string
               Fixture.no_file 0%Z 0%Z "0"%string (JInt 0)
               eq_refl eq_refl eq_refl))) 0%Z eq_refl _).
  lia.
Defined.

Section Fallbacks.

Context `{Platform}.

Variable entries : list wbcffi_config_entry.

Hypothesis entries_unusable :
  forall key value, In (key, value) entries -> unusable_value value.

Lemma config_double_unusable (key : string) (current : R) :
  config_double entries key current = current.
Proof.
  unfold config_double.
  destruct (config_lookup entries key) as [cfg|] eqn:Hcfg; [|reflexivity].
  destruct (entries_unusable key cfg (config_lookup_In _ _ _ Hcfg)) as [Hnum _].
  unfold json_node_get_double_or.
  destruct (parse_json_value (Some cfg)); [now rewrite Hnum|reflexivity].
Qed.

Lemma config_uint_unusable (key : string) (current : Z) :
  config_uint entries key current = current.
Proof.
  unfold config_uint.
  destruct (config_lookup entries key) as [cfg|] eqn:Hcfg; [|reflexivity].
  destruct (entries_unusable key cfg (config_lookup_In _ _ _ Hcfg)) as [Hnum _].
  unfold json_node_get_uint_or.
  destruct (parse_json_value (Some cfg)); [now rewrite Hnum|reflexivity].
Qed.

Lemma config_alpha_unusable (key : string) (current : R) :
  0 <= current <= 1 -> config_alpha entries key current = current.
Proof.
  intros Hcur. unfold config_alpha.
  destruct (config_lookup entries key) as [cfg|] eqn:Hcfg; [|reflexivity].
  destruct (entries_unusable key cfg (config_lookup_In _ _ _ Hcfg)) as [Hnum _].
  unfold json_node_get_double_or.
  destruct (parse_json_value (Some cfg)); [rewrite Hnum|]; split_macros.
Qed.

Lemma config_color_unusable (key : string) (current : GdkRGBA) :
  config_color entries key current = current.
Proof.
  unfold config_color.
  destruct (config_lookup entries key) as [cfg|] eqn:Hcfg; [|reflexivity].
  destruct (entries_unusable key cfg (config_lookup_In _ _ _ Hcfg)) as [_ Hstr].
  now rewrite Hstr.
Qed.

Lemma config_cache_path_unusable : config_cache_path entries = None.
Proof.
  unfold config_cache_path.
  destruct (config_lookup entries "cache_path") as [cfg|] eqn:Hcfg;
    [|reflexivity].
  destruct (entries_unusable _ cfg (config_lookup_In _ _ _ Hcfg)) as [_ Hstr].
  now rewrite Hstr.
Qed.

Lemma configure_unusable (now : Z) : configure entries now = configure [] now.
Proof.
  unfold configure.
  rewrite config_cache_path_unusable, !config_double_unusable,
    config_uint_unusable, !config_color_unusable.
  rewrite !config_alpha_unusable by lra.
  destruct (config_lookup entries "width_chars"); reflexivity.
Qed.

End Fallbacks.

(** X3: initialisation does not fail on bad configuration values, it falls
    back. When every configured value is unusable, because it does not
    parse or parses to something that is neither a number nor a string, the
    instance is the instance of the empty configuration, with the default
    path and the default period 1600, width 4, cycles 1, tick 33, pause 500
    and alpha values 0.35 and 1. *)
Theorem unusable_config_is_default `{Platform}
  (entries : list wbcffi_config_entry) (fs : string -> option string)
  (t_start t_load : Z) :
  (forall key value, In (key, value) entries -> unusable_value value) ->
  let inst := wbcffi_init entries fs t_start t_load in
  inst = wbcffi_init [] fs t_start t_load
  /\ cache_path inst = Some default_cache_path
  /\ period_ms inst = 1600 /\ width_chars inst = 4 /\ cycles inst = 1
  /\ tick_ms inst = 33%Z /\ pause_ms inst = 500
  /\ highlight_alpha inst = 35 / 100 /\ base_alpha inst = 1.
Proof.
  intros Hbad. cbv zeta. unfold wbcffi_init.
  rewrite (configure_unusable entries Hbad).
  destruct (load_cache_keeps_config fs t_load (configure [] t_start))
    as [Hpath [Hp [Hw [Hc [Ht [Hpa [Hh [Hb _]]]]]]]].
  rewrite Hpath, Hp, Hw, Hc, Ht, Hpa, Hh, Hb. cbn.
  repeat split; split_macros.
Qed.

Lemma unusable_config_is_default_witness :
  let entries :=
    [("period_ms", "fast"); ("cache_path", "{not json"); ("tick_ms", "[1]")]%string in
  @wbcffi_init Fixture.platform entries Fixture.no_file 0 0
  = @wbcffi_init Fixture.platform [] Fixture.no_file 0 0.
Proof.
  cbv zeta.
  refine (proj1 (@unusable_config_is_default Fixture.platform
                   [("period_ms", "fast"); ("cache_path", "{not json");
                    ("tick_ms", "[1]")]%string Fixture.no_file 0%Z 0%Z _)).
  intros key value [[= _ <-]|[[= _ <-]|[[= _ <-]|[]]]]; split; reflexivity.
Defined.

(** X4: the key [width] is an alias that is read only when [width_chars] is
    not configured at all. A [width_chars] entry whose value is unusable
    gives the default width 4 whatever the [width] entry says; without a
    [width_chars] entry, a [width] entry that is a number gives that number
    clamped to [1,20]. *)
Theorem width_alias `{Platform} (entries : list wbcffi_config_entry)
  (fs : string -> option string) (t_start t_load : Z) :
  let inst := wbcffi_init entries fs t_start t_load in
  (forall cfg,
      config_lookup entries "width_chars" = Some cfg ->
      json_node_is_number (parse_json_value (Some cfg)) = false ->
      width_chars inst = 4)
  /\ (forall cfg node,
         config_lookup entries "width_chars" = None ->
         config_lookup entries "width" = Some cfg ->
         parse_json_value (Some cfg) = Some node ->
         json_node_is_number (Some node) = true ->
         width_chars inst = CLAMP (json_node_get_double node) 1 20).
Proof.
  cbv zeta. unfold wbcffi_init.
  destruct (load_cache_keeps_config fs t_load (configure entries t_start))
    as [_ [_ [Hw _]]].
  rewrite Hw. unfold configure. cbn [width_chars]. split.
  - intros cfg Hcfg Hnum. rewrite Hcfg. unfold config_double. rewrite Hcfg.
    unfold json_node_get_double_or.
    destruct (parse_json_value (Some cfg)); [rewrite Hnum|]; split_macros.
  - intros cfg node Hnone Hcfg Hparse Hnum. rewrite Hnone.
    now rewrite (config_double_number _ _ _ _ _ Hcfg Hparse Hnum).
Qed.

Lemma width_alias_witness :
  width_chars (@wbcffi_init Fixture.platform
                 [("width_chars", "wide"); ("width", "50")]%string
                 Fixture.no_file 0 0) = 4
  /\ width_chars (@wbcffi_init Fixture.platform [("width", "50")]%string
                    Fixture.no_file 0 0) = CLAMP (IZR 50) 1 20.
Proof.
  split.
  - exact (proj1 (@width_alias Fixture.platform
                    [("width_chars", "wide"); ("width", "50")]%string
                    Fixture.no_file 0%Z 0%Z) "wide"%string eq_refl eq_refl).
  - exact (proj2 (@width_alias Fixture.platform [("width", "50")]%string
                    Fixture.no_file 0%Z 0%Z) "50"%string (JInt 50)
             eq_refl eq_refl eq_refl eq_refl).
Defined.

(** X5: the instance always has a cache path. It is the default path under
    the home directory when [cache_path] is not configured, and also when
    its value is not a JSON string. *)
Theorem init_cache_path_total `{Platform} (entries : list wbcffi_config_entry)
  (fs : string -> option string) (t_start t_load : Z) :
  let inst := wbcffi_init entries fs t_start t_load in
  (exists path, cache_path inst = Some path)
  /\ (config_lookup entries "cache_path" = None ->
      cache_path inst = Some default_cache_path)
  /\ (forall cfg,
         config_lookup entries "cache_path" = Some cfg ->
         json_node_is_string (parse_json_value (Some cfg)) = false ->
         cache_path inst = Some default_cache_path).
Proof.
  cbv zeta. unfold wbcffi_init.
  destruct (load_cache_keeps_config fs t_load (configure entries t_start))
    as [Hpath _].
  rewrite Hpath. unfold configure. cbn [cache_path].
  split; [eexists; reflexivity|]. unfold config_cache_path. split.
  - intros Hnone. now rewrite Hnone.
  - intros cfg Hcfg Hstr. now rewrite Hcfg, Hstr.
Qed.

Lemma init_cache_path_total_witness :
  cache_path (@wbcffi_init Fixture.platform [("cache_path", "50")]%string
                Fixture.no_file 0 0)
  = Some Fixture.default_path
  /\ cache_path (@wbcffi_init Fixture.platform [] Fixture.no_file 0 0)
     = Some Fixture.default_path.
Proof.
  split.
  - exact (proj2 (proj2 (@init_cache_path_total Fixture.platform
                           [("cache_path", "50")]%string Fixture.no_file 0%Z 0%Z))
             "50"%string eq_refl eq_refl).
  - exact (proj1 (proj2 (@init_cache_path_total Fixture.platform []
                           Fixture.no_file 0%Z 0%Z)) eq_refl).
Defined.

(** X6: the alpha of a colour is never taken from the colour string. After
    initialisation the alpha channel of the highlight colour is the
    highlight alpha and that of the base colour is the base alpha; a
    configured highlight colour that GDK parses supplies the red, green and
    blue channels only, and one that GDK rejects leaves the channels of the
    default colour. *)
Theorem init_color_alpha `{Platform} (entries : list wbcffi_config_entry)
  (fs : string -> option string) (t_start t_load : Z) :
  let inst := wbcffi_init entries fs t_start t_load in
  alpha (highlight_rgba inst) = highlight_alpha inst
  /\ alpha (base_rgba inst) = base_alpha inst
  /\ (forall cfg spec c,
         config_lookup entries "highlight_color" = Some cfg ->
         parse_json_value (Some cfg) = Some (JString spec) ->
         gdk_rgba_parse spec = Some c ->
         highlight_rgba inst = set_alpha (highlight_alpha inst) c)
  /\ (forall cfg spec,
         config_lookup entries "highlight_color" = Some cfg ->
         parse_json_value (Some cfg) = Some (JString spec) ->
         gdk_rgba_parse spec = None ->
         highlight_rgba inst
         = set_alpha (highlight_alpha inst) (default_color "#FFFFFF")).
Proof.
  cbv zeta. unfold wbcffi_init.
  destruct (load_cache_keeps_config fs t_load (configure entries t_start))
    as [_ [_ [_ [_ [_ [_ [Hh [Hb [Hbase Hhigh]]]]]]]]].
  rewrite Hh, Hb, Hbase, Hhigh. unfold configure.
  cbn [highlight_rgba base_rgba highlight_alpha base_alpha].
  split; [reflexivity|]. split; [reflexivity|]. split.
  - intros cfg spec c Hcfg Hparse Hcolor. unfold config_color at 1.
    rewrite Hcfg, Hparse. cbn. now rewrite Hcolor.
  - intros cfg spec Hcfg Hparse Hcolor. unfold config_color at 1.
    rewrite Hcfg, Hparse. cbn. now rewrite Hcolor.
Qed.

Lemma init_color_alpha_witness :
  let inst :=
    @wbcffi_init Fixture.platform
      [("highlight_color"%string, Fixture.quoted "/tmp/latest.json")]
      Fixture.no_file 0 0 in
  highlight_rgba inst = set_alpha (highlight_alpha inst) (mkRGBA 1 1 1 1).
Proof.
  cbv zeta.
  exact (proj2 (proj2 (proj2 (@init_color_alpha Fixture.platform
           [("highlight_color"%string, Fixture.quoted "/tmp/latest.json")]
           Fixture.no_file 0%Z 0%Z)))
           (Fixture.quoted "/tmp/latest.json") "/tmp/latest.json"%string
           eq_refl eq_refl eq_refl).
Defined.

(** ** Sequences of loads *)

Section Loads.

Context `{Platform}.

(** The display fields after a load that succeeds, read off the document. *)
Lemma load_cache_display (fs : string -> option string) (now : Z)
  (inst : CodexShimmer) (obj : list (string * JsonNode)) :
  cache_document fs inst obj ->
  let inst' := snd (load_cache fs now inst) in
  fst (load_cache fs now inst) = true
  /\ text_plain inst' = Some (text_of_member (json_object_get_member obj "text"))
  /\ tooltip_text inst' = json_object_get_string_member obj "tooltip"
  /\ widget_tooltip inst' = json_object_get_string_member obj "tooltip"
  /\ style_classes inst' = class_tags (json_object_get_member obj "class")
  /\ container_classes inst'
     = fold_left gtk_style_context_add_class
         (class_tags (json_object_get_member obj "class"))
         (fold_left gtk_style_context_remove_class (style_classes inst)
            (container_classes inst))
  /\ start_time_us inst' = now
  /\ size_request inst'
     = Some (ZMAX (fst (pango_layout_get_pixel_size false
                          (text_of_member (json_object_get_member obj "text")))
                   + 16) 80,
             snd (pango_layout_get_pixel_size false
                    (text_of_member (json_object_get_member obj "text"))) + 8)%Z.
Proof.
  intros [contents [Hread Hparse]]. cbv zeta.
  destruct (update_style_classes_spec inst obj) as [Htags Hcls].
  unfold load_cache. rewrite Hread, Hparse.
  rewrite !json_object_has_get_string.
  assert (Htext : match json_object_get_string_member obj "text" with
                  | Some t => t
                  | None => placeholder_text
                  end = text_of_member (json_object_get_member obj "text")).
  { unfold json_object_get_string_member, text_of_member.
    destruct (json_object_get_member obj "text") as [[]|]; reflexivity. }
  rewrite Htext.
  destruct (pango_layout_get_pixel_size false _) as [w h].
  cbn. rewrite Htags, Hcls. repeat split.
Qed.

Lemma load_cache_step (fs : string -> option string) (now : Z)
  (inst : CodexShimmer) :
  snd (load_cache fs now inst) = inst
  \/ exists obj, cache_document fs inst obj.
Proof.
  destruct (load_cache_cases fs now inst) as [[_ Heq]|[obj [Hdoc _]]].
  - left. now rewrite Heq.
  - right. now exists obj.
Qed.

Lemma run_loads_app (events more : list ((string -> option string) * Z))
  (inst : CodexShimmer) :
  run_loads (events ++ more) inst = run_loads more (run_loads events inst).
Proof. unfold run_loads. apply fold_left_app. Qed.

Lemma cache_document_same_path (fs : string -> option string)
  (inst other : CodexShimmer) (obj : list (string * JsonNode)) :
  cache_path other = cache_path inst ->
  cache_document fs inst obj -> cache_document fs other obj.
Proof.
  intros Hpath [contents [Hread Hparse]]. exists contents.
  now rewrite Hpath.
Qed.

Lemma cache_document_unique (fs : string -> option string) (inst : CodexShimmer)
  (obj obj' : list (string * JsonNode)) :
  cache_document fs inst obj -> cache_document fs inst obj' -> obj = obj'.
Proof.
  intros [c [Hread Hparse]] [c' [Hread' Hparse']]. congruence.
Qed.

End Loads.

(** X7: the three load errors are exactly the ways a load fails. A load
    reports failure if and only if the file cannot be read, or its contents
    are not JSON, or the root of the document is not an object; otherwise
    it reports success. *)
Theorem load_cache_fails_iff `{Platform} (fs : string -> option string)
  (now : Z) (inst : CodexShimmer) :
  (fst (load_cache fs now inst) = false <-> load_error fs inst)
  /\ (fst (load_cache fs now inst) = true
      <-> exists obj, cache_document fs inst obj).
Proof.
  destruct (load_cache_cases fs now inst) as [[Herr Heq]|[obj [Hdoc Hok]]].
  - rewrite Heq. cbn. split; [tauto|]. split; [discriminate|].
    intros [obj [contents [Hread Hparse]]].
    destruct Herr as [Hno|c Hread' Hbad|c root Hread' Hparse' Hshape];
      [congruence|congruence|].
    exfalso. apply (Hshape obj). congruence.
  - rewrite Hok. split; [|split; [now exists obj|reflexivity]].
    split; [discriminate|].
    destruct Hdoc as [contents [Hread Hparse]].
    intros [Hno|c Hread' Hbad|c root Hread' Hparse' Hshape];
      [congruence|congruence|].
    exfalso. apply (Hshape obj). congruence.
Qed.

(** X8: a load that succeeds replaces the display content wholesale. The
    text, the tooltip, the tags, the size request and the epoch after the
    load are the same from any two instances that read the same cache path,
    whatever they displayed before. *)
Theorem load_replaces_display `{Platform} (fs : string -> option string)
  (now : Z) (inst other : CodexShimmer) :
  cache_path other = cache_path inst ->
  fst (load_cache fs now inst) = true ->
  let a := snd (load_cache fs now inst) in
  let b := snd (load_cache fs now other) in
  fst (load_cache fs now other) = true
  /\ text_plain a = text_plain b
  /\ tooltip_text a = tooltip_text b
  /\ widget_tooltip a = widget_tooltip b
  /\ style_classes a = style_classes b
  /\ size_request a = size_request b
  /\ start_time_us a = start_time_us b.
Proof.
  intros Hpath Hok. cbv zeta.
  destruct (load_cache_cases fs now inst) as [[_ Heq]|[obj [Hdoc _]]].
  { rewrite Heq in Hok. discriminate Hok. }
  pose proof (cache_document_same_path fs inst other obj Hpath Hdoc) as Hdoc'.
  destruct (load_cache_display fs now inst obj Hdoc)
    as [_ [Ht [Htip [Hw [Hs [_ [Hstart Hsize]]]]]]].
  destruct (load_cache_display fs now other obj Hdoc')
    as [Hok' [Ht' [Htip' [Hw' [Hs' [_ [Hstart' Hsize']]]]]]].
  repeat split; congruence.
Qed.

Lemma load_replaces_display_witness :
  let fs := Fixture.one_file Fixture.default_path Fixture.doc_hello in
  let fresh := @configure Fixture.platform [] 0 in
  let busy :=
    @wbcffi_init Fixture.platform []
      (Fixture.one_file Fixture.default_path Fixture.doc_busy) 0 1 in
  text_plain (snd (@load_cache Fixture.platform fs 9 fresh))
  = text_plain (snd (@load_cache Fixture.platform fs 9 busy))
  /\ style_classes (snd (@load_cache Fixture.platform fs 9 fresh))
     = style_classes (snd (@load_cache Fixture.platform fs 9 busy)).
Proof.
  cbv zeta.
  destruct (@load_replaces_display Fixture.platform
              (Fixture.one_file Fixture.default_path Fixture.doc_hello) 9%Z
              (@configure Fixture.platform [] 0)
              (@wbcffi_init Fixture.platform []
                 (Fixture.one_file Fixture.default_path Fixture.doc_busy) 0 1)
              eq_refl eq_refl) as [_ [Ht [_ [_ [Hs _]]]]].
  split; assumption.
Defined.

(** X9: loading the same cache twice gives the same display. After a load
    that succeeds, a second load of the same file system succeeds too and
    leaves the text, the tooltip, the tags and the size request as the first
    load left them, and the same set of classes on the container; only the
    epoch moves, to the reading of the clock of the second load. *)
Theorem load_cache_idempotent `{Platform} (fs : string -> option string)
  (t1 t2 : Z) (inst : CodexShimmer) :
  fst (load_cache fs t1 inst) = true ->
  let a := snd (load_cache fs t1 inst) in
  let b := snd (load_cache fs t2 a) in
  fst (load_cache fs t2 a) = true
  /\ text_plain b = text_plain a
  /\ tooltip_text b = tooltip_text a
  /\ widget_tooltip b = widget_tooltip a
  /\ style_classes b = style_classes a
  /\ size_request b = size_request a
  /\ (forall cl, In cl (container_classes b) <-> In cl (container_classes a))
  /\ start_time_us b = t2.
Proof.
  intros Hok. cbv zeta.
  destruct (load_cache_cases fs t1 inst) as [[_ Heq]|[obj [Hdoc _]]].
  { rewrite Heq in Hok. discriminate Hok. }
  destruct (load_cache_keeps_config fs t1 inst) as [Hpath _].
  pose proof (cache_document_same_path fs inst _ obj Hpath Hdoc) as Hdoc'.
  destruct (load_cache_display fs t1 inst obj Hdoc)
    as [_ [Ht [Htip [Hw [Hs [Hc [_ Hsize]]]]]]].
  destruct (load_cache_display fs t2 _ obj Hdoc')
    as [Hok' [Ht' [Htip' [Hw' [Hs' [Hc' [Hstart' Hsize']]]]]]].
  split; [exact Hok'|]. split; [congruence|]. split; [congruence|].
  split; [congruence|]. split; [congruence|]. split; [congruence|].
  split; [|exact Hstart'].
  intros cl. rewrite Hc', Hs, Hc.
  rewrite !add_classes_In, !remove_classes_In, !add_classes_In,
    !remove_classes_In.
  tauto.
Qed.

Lemma load_cache_idempotent_witness :
  let fs := Fixture.one_file Fixture.default_path Fixture.doc_a_b in
  let a := snd (@load_cache Fixture.platform fs 3 (@configure Fixture.platform [] 0)) in
  let b := snd (@load_cache Fixture.platform fs 8 a) in
  style_classes b = style_classes a
  /\ style_classes a = ["a"; "b"]%string
  /\ start_time_us b = 8%Z.
Proof.
  cbv zeta.
  destruct (@load_cache_idempotent Fixture.platform
              (Fixture.one_file Fixture.default_path Fixture.doc_a_b) 3%Z 8%Z
              (@configure Fixture.platform [] 0) eq_refl)
    as [_ [_ [_ [_ [Hs [_ [_ Hstart]]]]]]].
  split; [exact Hs|]. split; [reflexivity|exact Hstart].
Defined.

Lemma add_class_NoDup (ctx : list string) (cl : string) :
  NoDup ctx -> NoDup (gtk_style_context_add_class ctx cl).
Proof.
  intros Hnd. unfold gtk_style_context_add_class.
  destruct (existsb (String.eqb cl) ctx) eqn:Hex; [assumption|].
  apply NoDup_app; [assumption|repeat constructor; intros []|].
  intros x Hin [Heq|[]]. subst x.
  assert (Htrue : existsb (String.eqb cl) ctx = true).
  { apply existsb_exists. exists cl. split; [assumption|apply String.eqb_refl]. }
  congruence.
Qed.

Lemma add_classes_NoDup (tags : list string) :
  forall ctx, NoDup ctx -> NoDup (fold_left gtk_style_context_add_class tags ctx).
Proof.
  induction tags as [|t rest IH]; intros ctx Hnd; cbn; [assumption|].
  apply IH. now apply add_class_NoDup.
Qed.

Lemma remove_classes_NoDup (owned : list string) :
  forall ctx,
    NoDup ctx -> NoDup (fold_left gtk_style_context_remove_class owned ctx).
Proof.
  induction owned as [|o rest IH]; intros ctx Hnd; cbn; [assumption|].
  apply IH. unfold gtk_style_context_remove_class. now apply NoDup_filter.
Qed.

Lemma run_loads_invariant `{Platform} (P : CodexShimmer -> Prop) :
  (forall fs now inst, P inst -> P (snd (load_cache fs now inst))) ->
  forall events inst, P inst -> P (run_loads events inst).
Proof.
  intros Hstep events.
  induction events as [|[fs now] rest IH]; intros inst HP; [assumption|].
  cbn. apply IH. now apply Hstep.
Qed.

(** X10: the tags the module owns are always applied. From initialisation
    on and through any run of loads, failed or not, every owned tag is a
    class of the container; and if the classes GTK gave the container were
    distinct, the classes of the container stay distinct, even when a cache
    repeats a tag. *)
Theorem loads_keep_tags_applied `{Platform}
  (entries : list wbcffi_config_entry) (t_start : Z)
  (events : list ((string -> option string) * Z)) :
  let inst := run_loads events (configure entries t_start) in
  (forall cl, In cl (style_classes inst) -> In cl (container_classes inst))
  /\ (NoDup gtk_box_classes -> NoDup (container_classes inst)).
Proof.
  cbv zeta. split.
  - apply (run_loads_invariant
             (fun i => forall cl, In cl (style_classes i) ->
                                  In cl (container_classes i))).
    + intros fs now inst Hinv.
      destruct (load_cache_step fs now inst) as [->|[obj Hdoc]]; [assumption|].
      destruct (load_cache_display fs now inst obj Hdoc)
        as [_ [_ [_ [_ [Hs [Hc _]]]]]].
      intros cl. rewrite Hs, Hc, add_classes_In. tauto.
    + intros cl [].
  - intros Hnd.
    apply (run_loads_invariant (fun i => NoDup (container_classes i))).
    + intros fs now inst Hinv.
      destruct (load_cache_step fs now inst) as [->|[obj Hdoc]]; [assumption|].
      destruct (load_cache_display fs now inst obj Hdoc)
        as [_ [_ [_ [_ [_ [Hc _]]]]]].
      rewrite Hc. now apply add_classes_NoDup, remove_classes_NoDup.
    + exact Hnd.
Qed.

Lemma loads_keep_tags_applied_witness :
  let events :=
    [(Fixture.one_file Fixture.default_path Fixture.doc_busy, 1%Z);
     (Fixture.one_file Fixture.default_path Fixture.doc_not_json, 2%Z);
     (Fixture.one_file Fixture.default_path Fixture.doc_a_b, 3%Z)] in
  let inst := @run_loads Fixture.platform events (@configure Fixture.platform [] 0) in
  NoDup (container_classes inst)
  /\ container_classes inst = ["horizontal"; "a"; "b"]%string.
Proof.
  cbv zeta. split; [|reflexivity].
  apply (proj2 (@loads_keep_tags_applied Fixture.platform [] 0%Z
                  [(Fixture.one_file Fixture.default_path Fixture.doc_busy, 1%Z);
                   (Fixture.one_file Fixture.default_path Fixture.doc_not_json, 2%Z);
                   (Fixture.one_file Fixture.default_path Fixture.doc_a_b, 3%Z)])).
  repeat constructor. intros [].
Defined.

(** X11: once a text has been loaded the instance is never without a text
    again: whatever loads follow, failed or not, the text stays present. *)
Theorem text_stays_present `{Platform}
  (events : list ((string -> option string) * Z)) (inst : CodexShimmer) :
  text_plain inst <> None -> text_plain (run_loads events inst) <> None.
Proof.
  apply (run_loads_invariant (fun i => text_plain i <> None)).
  intros fs now i Hinv.
  destruct (load_cache_step fs now i) as [->|[obj Hdoc]]; [assumption|].
  destruct (load_cache_display fs now i obj Hdoc) as [_ [Ht _]].
  rewrite Ht. discriminate.
Qed.

Lemma text_stays_present_witness :
  let shown :=
    @wbcffi_init Fixture.platform []
      (Fixture.one_file Fixture.default_path Fixture.doc_hello) 0 7 in
  text_plain shown <> None
  /\ text_plain
       (@run_loads Fixture.platform
          [(Fixture.no_file, 8%Z);
           (Fixture.one_file Fixture.default_path Fixture.doc_array_root, 9%Z)]
          shown) <> None.
Proof.
  cbv zeta.
  assert (Hshown : text_plain
                     (@wbcffi_init Fixture.platform []
                        (Fixture.one_file Fixture.default_path Fixture.doc_hello)
                        0 7) <> None) by discriminate.
  split; [exact Hshown|].
  exact (@text_stays_present Fixture.platform _ _ Hshown).
Defined.

(** X12: the epoch only moves forward, and only to the reading of a load.
    Through a run of loads whose clock readings do not decrease and do not
    precede the epoch, the epoch at the end is not before the epoch at the
    start, and it is either that epoch or one of the readings. *)
Theorem epoch_moves_forward `{Platform}
  (events : list ((string -> option string) * Z)) (inst : CodexShimmer) :
  StronglySorted Z.le (start_time_us inst :: map snd events) ->
  (start_time_us inst <= start_time_us (run_loads events inst))%Z
  /\ In (start_time_us (run_loads events inst))
       (start_time_us inst :: map snd events).
Proof.
  revert inst. induction events as [|[fs now] rest IH]; intros inst Hsorted.
  - cbn. split; [lia|now left].
  - cbn [run_loads fold_left map fst snd] in *.
    change (fold_left _ rest ?i) with (run_loads rest i).
    apply StronglySorted_inv in Hsorted as [Htail Hall].
    apply Forall_inv in Hall as Hnow.
    apply Forall_inv_tail in Hall as Hafter.
    apply StronglySorted_inv in Htail as [Hrest Hnext].
    destruct (load_cache_step fs now inst) as [Hsame|[obj Hdoc]].
    + rewrite Hsame.
      destruct (IH inst) as [Hle Hin]; [now constructor|].
      split; [exact Hle|]. destruct Hin as [Heq|Hin]; [now left|right; now right].
    + destruct (load_cache_display fs now inst obj Hdoc)
        as [_ [_ [_ [_ [_ [_ [Hstart _]]]]]]].
      destruct (IH (snd (load_cache fs now inst))) as [Hle Hin].
      { rewrite Hstart. now constructor. }
      rewrite Hstart in Hle, Hin.
      split; [lia|]. right. exact Hin.
Qed.

Lemma epoch_moves_forward_witness :
  let events :=
    [(Fixture.one_file Fixture.default_path Fixture.doc_busy, 4%Z);
     (Fixture.no_file, 9%Z)] in
  start_time_us (@run_loads Fixture.platform events (@configure Fixture.platform [] 1))
  = 4%Z
  /\ (1 <= start_time_us
             (@run_loads Fixture.platform events (@configure Fixture.platform [] 1)))%Z.
Proof.
  cbv zeta. split; [reflexivity|].
  refine (proj1 (@epoch_moves_forward Fixture.platform
                   [(Fixture.one_file Fixture.default_path Fixture.doc_busy, 4%Z);
                    (Fixture.no_file, 9%Z)]
                   (@configure Fixture.platform [] 1) _)).
  repeat constructor; cbn; lia.
Defined.

(** ** The clock and the cycle *)

Lemma two_64_pos : (0 < two_64)%Z.
Proof. reflexivity. Qed.

Lemma elapsed_ms_nonneg (inst : CodexShimmer) (now : Z) :
  0 <= elapsed_ms inst now.
Proof.
  unfold elapsed_ms.
  pose proof (Z.mod_pos_bound (now - start_time_us inst) two_64 two_64_pos)
    as [Hlow _].
  apply IZR_le in Hlow. lra.
Qed.

Lemma fmod_range (x T : R) : 0 <= x -> 0 < T -> 0 <= fmod x T < T.
Proof.
  intros Hx HT. unfold fmod, Rtrunc.
  assert (Hq : 0 <= x / T).
  { apply Rmult_le_pos; [assumption|]. left. now apply Rinv_0_lt_compat. }
  destruct (Rle_dec 0 (x / T)) as [_|Hneg]; [|contradiction].
  pose proof (Zfloor_bound (x / T)) as [Hlow Hhigh].
  assert (Hxq : x = x / T * T) by (field; lra).
  remember (x / T) as q. remember (IZR (Zfloor q)) as k.
  rewrite Hxq. split; nra.
Qed.

Lemma envelope_range (phase : R) : 0 <= phase <= 1 -> 0 <= envelope phase <= 1.
Proof.
  intros Hp. unfold envelope. destruct (Rlt_dec phase (1 / 2)); lra.
Qed.

(** X13: the elapsed time is never negative. When the clock reading is not
    before the epoch it is the difference in milliseconds; a reading before
    the epoch does not give a negative time but wraps around, to the
    difference plus two to the 64 microseconds. *)
Theorem elapsed_ms_wraps (inst : CodexShimmer) (now : Z) :
  0 <= elapsed_ms inst now
  /\ ((0 <= now - start_time_us inst < two_64)%Z ->
      elapsed_ms inst now = IZR (now - start_time_us inst) / 1000)
  /\ ((- two_64 <= now - start_time_us inst < 0)%Z ->
      elapsed_ms inst now = IZR (now - start_time_us inst + two_64) / 1000).
Proof.
  split; [apply elapsed_ms_nonneg|]. unfold elapsed_ms. split.
  - intros Hrange. now rewrite Z.mod_small.
  - intros Hrange.
    rewrite <- (Z.mod_add _ 1 two_64) by (pose proof two_64_pos; lia).
    rewrite Z.mul_1_l, Z.mod_small by lia. reflexivity.
Qed.

Lemma elapsed_ms_wraps_witness :
  let inst := @configure Fixture.platform [] 1000 in
  elapsed_ms inst 4000 = IZR 3000 / 1000
  /\ elapsed_ms inst 0 = IZR (18446744073709551616 - 1000) / 1000.
Proof.
  cbv zeta.
  destruct (elapsed_ms_wraps (@configure Fixture.platform [] 1000) 4000)
    as [_ [Hfwd _]].
  destruct (elapsed_ms_wraps (@configure Fixture.platform [] 1000) 0)
    as [_ [_ Hback]].
  split.
  - apply Hfwd. cbn. unfold two_64. lia.
  - apply Hback. cbn. unfold two_64. lia.
Defined.

(** X14: with the configuration clamped, the position in the cycle that
    [on_draw] computes lies in the cycle, from 0 to below period plus pause,
    and wherever the highlight is drawn, the position being below the
    period, the phase lies in [0,1) and the envelope in [0,1]: the divisions
    of the pass are by positive numbers. *)
Theorem sweep_phase_range (inst : CodexShimmer) (now : Z) :
  200 <= period_ms inst ->
  0 <= pause_ms inst ->
  let pos := cycle_pos inst (elapsed_ms inst now) in
  0 <= pos < total_cycle inst
  /\ (pos < period_ms inst ->
      0 <= pos / period_ms inst < 1
      /\ 0 <= envelope (pos / period_ms inst) <= 1).
Proof.
  intros Hperiod Hpause. cbv zeta.
  assert (Hrange : 0 <= cycle_pos inst (elapsed_ms inst now) < total_cycle inst).
  { unfold cycle_pos. apply fmod_range; [apply elapsed_ms_nonneg|].
    unfold total_cycle. lra. }
  split; [exact Hrange|]. intros Hin.
  assert (Hphase : 0 <= cycle_pos inst (elapsed_ms inst now) / period_ms inst < 1).
  { split.
    - apply Rmult_le_pos; [lra|]. left. apply Rinv_0_lt_compat. lra.
    - apply (Rmult_lt_reg_r (period_ms inst)); [lra|].
      replace (cycle_pos inst (elapsed_ms inst now) / period_ms inst
               * period_ms inst)
        with (cycle_pos inst (elapsed_ms inst now)) by (field; lra).
      lra. }
  split; [exact Hphase|]. apply envelope_range. lra.
Qed.

Lemma sweep_phase_range_witness :
  let inst := @configure Fixture.platform [] 0 in
  200 <= period_ms inst /\ 0 <= pause_ms inst
  /\ 0 <= cycle_pos inst (elapsed_ms inst 123456789) < total_cycle inst.
Proof.
  cbv zeta.
  assert (Hp : 200 <= period_ms (@configure Fixture.platform [] 0))
    by (cbn; split_macros).
  assert (Hpa : 0 <= pause_ms (@configure Fixture.platform [] 0))
    by (cbn; split_macros).
  split; [exact Hp|]. split; [exact Hpa|].
  exact (proj1 (sweep_phase_range (@configure Fixture.platform [] 0)
                  123456789%Z Hp Hpa)).
Defined.

(** ** The highlight band and its gradient *)

Lemma band_width_range (inst : CodexShimmer) (text : string)
  (layout_width_px : Z) (pos : R) :
  (0 < layout_width_px)%Z ->
  1 <= width_chars inst ->
  0 <= envelope (pos / period_ms inst) <= 1 ->
  avg_char_width text layout_width_px * (6 / 10)
  <= band_width inst text layout_width_px pos
  <= avg_char_width text layout_width_px * width_chars inst.
Proof.
  intros Hw Hchars Henv.
  pose proof (avg_char_width_bounds text layout_width_px Hw) as [Havg _].
  unfold band_width, base_width. cbv zeta.
  remember (avg_char_width text layout_width_px) as avg.
  remember (envelope (pos / period_ms inst)) as env.
  remember (width_chars inst) as wc.
  unfold MAX.
  repeat match goal with
         | |- context [Rgt_dec ?a ?b] => destruct (Rgt_dec a b)
         end; split; nra.
Qed.

(** X16: the band never degenerates. For a layout of positive width, a width
    in characters of at least 1 and a position inside a positive period,
    the average character width is positive and at most the layout width,
    the band width lies between 0.6 of it and the configured number of
    characters, and the gradient spans exactly two band widths on either
    side of the centre: the replacement of an empty span by one pixel is
    never taken. *)
Theorem band_width_bounds (inst : CodexShimmer) (text : string)
  (layout_width_px : Z) (x y pos : R) :
  (0 < layout_width_px)%Z ->
  1 <= width_chars inst ->
  0 < period_ms inst ->
  0 <= pos < period_ms inst ->
  let avg := avg_char_width text layout_width_px in
  let w := band_width inst text layout_width_px pos in
  let c := center_px w (IZR layout_width_px) (pos / period_ms inst) in
  0 < avg <= IZR layout_width_px
  /\ avg * (6 / 10) <= w <= avg * width_chars inst
  /\ 0 < w
  /\ highlight_pass inst text layout_width_px x y pos
     = PaintGradient text x y (c - w * 2) (c + w * 2)
         (map (gradient_stop inst (c - w * 2) (c + w * 2) c w
                 (envelope (pos / period_ms inst)))
            (seq 0 (S steps))).
Proof.
  intros Hw Hchars Hperiod Hpos. cbv zeta.
  pose proof (avg_char_width_bounds text layout_width_px Hw) as Havg.
  assert (Hphase : 0 <= pos / period_ms inst <= 1).
  { split.
    - apply Rmult_le_pos; [lra|]. left. now apply Rinv_0_lt_compat.
    - apply (Rmult_le_reg_r (period_ms inst)); [assumption|].
      replace (pos / period_ms inst * period_ms inst) with pos by (field; lra).
      lra. }
  pose proof (band_width_range inst text layout_width_px pos Hw Hchars
                (envelope_range _ Hphase)) as Hband.
  assert (Hpos_w : 0 < band_width inst text layout_width_px pos) by lra.
  split; [exact Havg|]. split; [exact Hband|]. split; [exact Hpos_w|].
  rewrite highlight_pass_band. cbv zeta.
  destruct (Rle_dec _ _) as [Hdegenerate|_]; [lra|reflexivity].
Qed.

Lemma band_width_bounds_witness :
  let inst :=
    @wbcffi_init Fixture.platform []
      (Fixture.one_file Fixture.default_path Fixture.doc_hello) 0 7 in
  0 < band_width inst "Hello" 45 800
  /\ band_width inst "Hello" 45 800 <= avg_char_width "Hello" 45 * width_chars inst.
Proof.
  cbv zeta.
  set (inst := @wbcffi_init Fixture.platform []
                 (Fixture.one_file Fixture.default_path Fixture.doc_hello) 0 7).
  assert (Hp : period_ms inst = 1600) by (cbn; split_macros).
  assert (Hw : width_chars inst = 4) by (cbn; split_macros).
  assert (H1 : (0 < 45)%Z) by lia.
  assert (H2 : 1 <= width_chars inst) by lra.
  assert (H3 : 0 < period_ms inst) by lra.
  assert (H4 : 0 <= 800 < period_ms inst) by lra.
  destruct (band_width_bounds inst "Hello" 45 0 0 800 H1 H2 H3 H4)
    as [_ [[_ Hup] [Hpos _]]].
  split; assumption.
Defined.

Lemma nth_error_in_range {A : Type} (l : list A) (i : nat) (x : A) :
  nth_error l i = Some x -> (i < length l)%nat.
Proof.
  intros Hnth. apply nth_error_Some. rewrite Hnth. discriminate.
Qed.

Lemma nth_error_map_seq {A : Type} (f : nat -> A) (len : nat) :
  forall start i,
    (i < len)%nat -> nth_error (map f (seq start len)) i = Some (f (start + i)%nat).
Proof.
  induction len as [|len IH]; intros start i Hi; [lia|].
  destruct i as [|i]; cbn.
  - now rewrite Nat.add_0_r.
  - rewrite IH by lia. f_equal. f_equal. lia.
Qed.

Lemma exp_nonpos (x : R) : x <= 0 -> 0 < exp x <= 1.
Proof.
  intros Hx. split; [apply exp_pos|].
  destruct Hx as [Hlt|Heq]; [|rewrite Heq, exp_0; lra].
  left. rewrite <- exp_0. now apply exp_increasing.
Qed.

Lemma INR_steps : INR steps = 96.
Proof. unfold steps. rewrite INR_IZR_INZ. reflexivity. Qed.

Lemma half_square_nonpos (d : R) : - (1 / 2) * d * d <= 0.
Proof. pose proof (Rle_0_sqr d) as Hsq. unfold Rsqr in Hsq. lra. Qed.

Lemma CLAMP_inside (x low high : R) : low <= x <= high -> CLAMP x low high = x.
Proof. intros Hx. split_macros. Qed.

Lemma highlight_pass_span (inst : CodexShimmer) (text : string)
  (layout_width_px : Z) (x y pos : R) :
  (0 < layout_width_px)%Z ->
  1 <= width_chars inst ->
  0 < period_ms inst ->
  0 <= pos < period_ms inst ->
  let w := band_width inst text layout_width_px pos in
  let c := center_px w (IZR layout_width_px) (pos / period_ms inst) in
  0 < w
  /\ 0 <= envelope (pos / period_ms inst) <= 1
  /\ highlight_pass inst text layout_width_px x y pos
     = PaintGradient text x y (c - w * 2) (c + w * 2)
         (map (gradient_stop inst (c - w * 2) (c + w * 2) c w
                 (envelope (pos / period_ms inst)))
            (seq 0 (S steps))).
Proof.
  intros Hw Hchars Hperiod Hpos. cbv zeta.
  pose proof (avg_char_width_bounds text layout_width_px Hw) as Havg.
  assert (Hphase : 0 <= pos / period_ms inst <= 1).
  { split.
    - apply Rmult_le_pos; [lra|]. left. now apply Rinv_0_lt_compat.
    - apply (Rmult_le_reg_r (period_ms inst)); [assumption|].
      replace (pos / period_ms inst * period_ms inst) with pos by (field; lra).
      lra. }
  pose proof (envelope_range _ Hphase) as Henv.
  pose proof (band_width_range inst text layout_width_px pos Hw Hchars Henv)
    as Hband.
  assert (Hpos_w : 0 < band_width inst text layout_width_px pos) by lra.
  split; [exact Hpos_w|]. split; [exact Henv|].
  rewrite highlight_pass_band. cbv zeta.
  destruct (Rle_dec _ _) as [Hdegenerate|_]; [lra|reflexivity].
Qed.

(** X17: the stops of the highlight. For a layout of positive width, a
    position inside a positive period and a highlight alpha in [0,1], the
    gradient has 97 stops; the stop at index i is at the offset i/96, from 0
    for the first to 1 for the last, and in the red, green and blue of the
    highlight colour; and its alpha lies between 0 and the highlight alpha
    times the envelope, hence never above the highlight alpha. *)
Theorem gradient_stops_bounded (inst : CodexShimmer) (text : string)
  (layout_width_px : Z) (x y pos : R) :
  (0 < layout_width_px)%Z ->
  1 <= width_chars inst ->
  0 < period_ms inst ->
  0 <= pos < period_ms inst ->
  0 <= highlight_alpha inst <= 1 ->
  let stops := gradient_stops_of (highlight_pass inst text layout_width_px x y pos) in
  let peak := highlight_alpha inst * envelope (pos / period_ms inst) in
  length stops = 97%nat
  /\ (forall i stop,
         nth_error stops i = Some stop ->
         (i <= 96)%nat
         /\ stop_offset stop = INR i / 96
         /\ 0 <= stop_offset stop <= 1
         /\ stop_red stop = red (highlight_rgba inst)
         /\ stop_green stop = green (highlight_rgba inst)
         /\ stop_blue stop = blue (highlight_rgba inst)
         /\ 0 <= stop_alpha stop <= peak)
  /\ 0 <= peak <= highlight_alpha inst.
Proof.
  intros Hw Hchars Hperiod Hpos Halpha. cbv zeta.
  destruct (highlight_pass_span inst text layout_width_px x y pos
              Hw Hchars Hperiod Hpos) as [Hband [Henv Hpass]].
  rewrite Hpass. cbn [gradient_stops_of].
  remember (envelope (pos / period_ms inst)) as env.
  remember (highlight_alpha inst) as ha.
  split; [now rewrite length_map, length_seq|].
  split; [|split; nra].
  intros i stop Hnth.
  assert (Hi : (i < 97)%nat).
  { apply nth_error_in_range in Hnth.
    now rewrite length_map, length_seq in Hnth. }
  rewrite nth_error_map_seq in Hnth by exact Hi.
  cbn [Nat.add] in Hnth. injection Hnth as <-.
  unfold gradient_stop. cbv zeta. cbn [stop_offset stop_red stop_green
                                        stop_blue stop_alpha].
  rewrite INR_steps, <- Heqha.
  split; [lia|]. split; [reflexivity|].
  assert (Hidx : 0 <= INR i <= 96).
  { split; [apply pos_INR|].
    change 96 with (IZR (Z.of_nat 96)). rewrite <- INR_IZR_INZ.
    apply le_INR. lia. }
  split; [lra|].
  split; [reflexivity|]. split; [reflexivity|]. split; [reflexivity|].
  match goal with
  | |- context [exp (- (1 / 2) * ?d * ?d)] =>
      pose proof (exp_nonpos _ (half_square_nonpos d)) as Hexp;
      remember (exp (- (1 / 2) * d * d)) as g
  end.
  assert (Hprod : 0 <= ha * env <= 1) by nra.
  rewrite CLAMP_inside by (split; nra).
  split; nra.
Qed.

Lemma gradient_stops_bounded_witness :
  let inst :=
    @wbcffi_init Fixture.platform []
      (Fixture.one_file Fixture.default_path Fixture.doc_hello) 0 7 in
  length (gradient_stops_of (highlight_pass inst "Hello" 45 0 4 800)) = 97%nat
  /\ highlight_alpha inst * envelope (800 / period_ms inst)
     <= highlight_alpha inst.
Proof.
  cbv zeta.
  set (inst := @wbcffi_init Fixture.platform []
                 (Fixture.one_file Fixture.default_path Fixture.doc_hello) 0 7).
  assert (Hp : period_ms inst = 1600) by (cbn; split_macros).
  assert (Hw : width_chars inst = 4) by (cbn; split_macros).
  assert (Ha : highlight_alpha inst = 35 / 100) by reflexivity.
  assert (H1 : (0 < 45)%Z) by lia.
  assert (H2 : 1 <= width_chars inst) by lra.
  assert (H3 : 0 < period_ms inst) by lra.
  assert (H4 : 0 <= 800 < period_ms inst) by lra.
  assert (H5 : 0 <= highlight_alpha inst <= 1) by lra.
  destruct (gradient_stops_bounded inst "Hello" 45 0 4 800 H1 H2 H3 H4 H5)
    as [Hlen [_ [_ Hpeak]]].
  split; assumption.
Defined.

(** ** Frames *)

(** X18: the shape of a frame. [on_draw] reports the frame unhandled
    exactly when there is no text, and then paints nothing; what it paints
    is nothing, or the base text pass alone, or the base text pass followed
    by one gradient: never a highlight without the base text under it, and
    never in another colour than the base colour of the instance. *)
Theorem on_draw_frame_shape `{Platform} (inst : CodexShimmer)
  (alloc_height now : Z) :
  let f := on_draw inst alloc_height now in
  (handled f = false <-> text_plain inst = None)
  /\ (handled f = false -> painted f = [])
  /\ (painted f = []
      \/ (exists text y, painted f = [ShowLayout text 0 y (base_rgba inst)])
      \/ (exists text y g,
             painted f = [ShowLayout text 0 y (base_rgba inst); g]
             /\ is_gradient g = true)).
Proof.
  cbv zeta. unfold on_draw.
  destruct (text_plain inst) as [text|]; cbn.
  2:{ split; [tauto|]. split; [reflexivity|now left]. }
  destruct (pango_layout_get_pixel_size true text) as [w h].
  destruct (w <=? 0)%Z; cbn.
  { split; [split; discriminate|]. split; [discriminate|now left]. }
  destruct (Rge_dec _ _); cbn.
  { split; [split; discriminate|]. split; [discriminate|].
    right. left. now eexists _, _. }
  destruct (Rle_dec _ _); cbn.
  { split; [split; discriminate|]. split; [discriminate|].
    right. left. now eexists _, _. }
  split; [split; discriminate|]. split; [discriminate|].
  right. right. eexists _, _, _. split; reflexivity.
Qed.

(** X19: when the highlight is drawn. For a text that is present and laid
    out with a positive width, the frame holds a gradient if and only if
    the position in the cycle is below the period and the highlight alpha
    is positive; the frame is then the base text pass followed by the
    highlight pass at that position. *)
Theorem highlight_drawn_iff `{Platform} (inst : CodexShimmer)
  (alloc_height now : Z) (text : string) (w h : Z) :
  text_plain inst = Some text ->
  pango_layout_get_pixel_size true text = (w, h) ->
  (0 < w)%Z ->
  let pos := cycle_pos inst (elapsed_ms inst now) in
  let y := IZR (alloc_height - h) / 2 in
  ((exists op, In op (painted (on_draw inst alloc_height now))
               /\ is_gradient op = true)
   <-> pos < period_ms inst /\ 0 < highlight_alpha inst)
  /\ (pos < period_ms inst ->
      0 < highlight_alpha inst ->
      on_draw inst alloc_height now
      = mkFrame true
          [ShowLayout text 0 y (base_rgba inst);
           highlight_pass inst text w 0 y pos]).
Proof.
  intros Htext Hsize Hw. cbv zeta.
  rewrite (on_draw_laid_out inst alloc_height now text w h Htext Hsize Hw).
  cbv zeta.
  destruct (Rge_dec _ _) as [Hout|Hin].
  { split; [|intros; lra]. split; [|intros; lra].
    intros [op [[<-|[]] Hgrad]]. discriminate Hgrad. }
  destruct (Rle_dec _ _) as [Hoff|Hon].
  { split; [|intros; lra]. split; [|intros; lra].
    intros [op [[<-|[]] Hgrad]]. discriminate Hgrad. }
  split; [|reflexivity]. split; [intros _; lra|].
  intros _. eexists. split; [right; left; reflexivity|reflexivity].
Qed.

Lemma highlight_drawn_iff_witness :
  let inst :=
    @wbcffi_init Fixture.platform []
      (Fixture.one_file Fixture.default_path Fixture.doc_hello) 0 7 in
  @on_draw Fixture.platform inst 24 800007
  = mkFrame true
      [ShowLayout "Hello" 0 (IZR (24 - 16) / 2) (base_rgba inst);
       highlight_pass inst "Hello" 45 0 (IZR (24 - 16) / 2)
         (cycle_pos inst (elapsed_ms inst 800007))].
Proof.
  cbv zeta.
  set (inst := @wbcffi_init Fixture.platform []
                 (Fixture.one_file Fixture.default_path Fixture.doc_hello) 0 7).
  assert (Hp : period_ms inst = 1600) by (cbn; split_macros).
  assert (Hpa : pause_ms inst = 500) by (cbn; split_macros).
  assert (Ha : highlight_alpha inst = 35 / 100) by reflexivity.
  assert (Hel : elapsed_ms inst 800007 = IZR 0 * total_cycle inst + 800).
  { unfold elapsed_ms. change (start_time_us inst) with 7%Z.
    change ((800007 - 7) mod two_64)%Z with 800000%Z. lra. }
  assert (Hpos : cycle_pos inst (elapsed_ms inst 800007) = 800).
  { unfold cycle_pos. rewrite Hel.
    rewrite fmod_cycle; unfold total_cycle; try lra. lia. }
  assert (Hw : (0 < 45)%Z) by lia.
  apply (proj2 (@highlight_drawn_iff Fixture.platform inst 24%Z 800007%Z
                  "Hello"%string 45%Z 16%Z eq_refl eq_refl Hw)).
  - rewrite Hpos, Hp. lra.
  - rewrite Ha. lra.
Defined.


